(** * Time tracker: time logging, summaries, invoices and reports

    A shallow embedding of the whitelisted methods of
    [time_tracker/api/time_api.py] and [time_tracker/api/billing_api.py].
    The methods run against the host framework's document store; the
    store, the session and the Python values crossing the API boundary are
    modelled here, each method is a computation in a state-and-exception
    monad over the store. *)

From Stdlib Require Import String Ascii List ZArith QArith Bool Lia.
From Stdlib Require Import Permutation Sorted DecimalString.
From Stdlib Require DecimalNat DecimalFacts.
Import ListNotations.
Local Open Scope string_scope.
Local Open Scope Q_scope.

(** ** Python values at the API boundary *)

(** A parameter of a whitelisted method, or a field of a row handed back by
    a query: [None], an [int], a [float] or a [str].  A float is taken as
    the rational it denotes and its arithmetic as exact; [inf] and [nan]
    are not represented. *)
Inductive pyval : Type :=
  | PyNone
  | PyInt (z : Z)
  | PyFloat (q : Q)
  | PyStr (s : string).

(** Comparisons of two floats, [a <= b] and [a < b]. *)
Definition Qleb (a b : Q) : bool := Qle_bool a b.
Definition Qltb (a b : Q) : bool := negb (Qle_bool b a).

(** Truth value of a Python object, as tested by [not x] and [x or y]. *)
Definition truthy (v : pyval) : bool :=
  match v with
  | PyNone => false
  | PyInt z => negb (z =? 0)%Z
  | PyFloat q => negb (Qeq_bool q 0)
  | PyStr s => negb (s =? "")%string
  end.

Definition py_or (v d : pyval) : pyval := if truthy v then v else d.

(** What the host supplies and the sources only call: Python's [float()]
    and [int()] on a [str] ([None] stands for the [ValueError]), the text a
    float is rendered to, the number the database reads in a text
    parameter, and the database's ORDER BY. *)
Record Host : Type := {
  py_float : string -> option Q;
  py_int : string -> option Z;
  py_str_float : Q -> string;
  sql_number : string -> Q;
  sql_order_by : forall A : Type, (A -> A -> bool) -> list A -> list A
}.

(** The contract of ORDER BY: the rows come back rearranged, and in the
    requested order whenever that order is a total preorder.  Rows that
    tie may come back in any order. *)
Definition total_preorder {A : Type} (le : A -> A -> bool) : Prop :=
  (forall a b, le a b = true \/ le b a = true) /\
  (forall a b c, le a b = true -> le b c = true -> le a c = true).

Definition order_by_ok (h : Host) : Prop :=
  forall (A : Type) (le : A -> A -> bool) (l : list A),
    Permutation (sql_order_by h A le l) l /\
    (total_preorder le ->
     StronglySorted (fun a b => le a b = true) (sql_order_by h A le l)).

(** ** Dates *)

Record date : Type := { year : Z; month : Z; day : Z }.

Definition date_leb (a b : date) : bool :=
  ((year a <? year b) ||
   ((year a =? year b) &&
    ((month a <? month b) ||
     ((month a =? month b) && (day a <=? day b)))))%Z.

(** ** Exceptions *)

Inductive exc_type : Type :=
  | ValidationError
  | PermissionError
  | DoesNotExistError
  | ValueError
  | TypeError.

Record exc : Type := { exc_kind : exc_type; exc_msg : string }.

Inductive outcome (A : Type) : Type :=
  | Ok (a : A)
  | Raised (e : exc).
Arguments Ok {A} a.
Arguments Raised {A} e.

(** ** The document store *)

(** Row of [tabProject], keyed by the document name. *)
Record Project : Type := {
  project_name : string;
  billing_rate : pyval;
  customer : string
}.

(** Row of [tabTime Log].  [docstatus] is 0 for a draft, 1 for a submitted
    and 2 for a cancelled document. *)
Record TimeLog : Type := {
  name : string;
  project : string;
  hours : Q;
  description : string;
  log_date : date;
  logged_by : string;
  docstatus : Z
}.

(** Calls that reach the database, most recent first. *)
Inductive db_call : Type :=
  | CallExists (doctype key : string)
  | CallGetValue (doctype key : string)
  | CallGetDoc (doctype key : string)
  | CallGetList (doctype : string)
  | CallSql (doctype : string)
  | CallInsert (doctype key : string)
  | CallSave (doctype key : string)
  | CallCommit.

(** [frappe.response] of a file download. *)
Record download : Type := {
  filename : string;
  filecontent : string
}.

Record world : Type := {
  tabProject : list (string * Project);
  tabTimeLog : list TimeLog;
  naming_series : nat;
  db_calls : list db_call;
  response : option download
}.

(** [frappe.session] and what the permission engine answers for it. *)
Record session : Type := {
  user : string;
  roles : list string;
  has_permission : string -> string -> option string -> bool;
  today : date
}.

(** ** The monad of a request *)

Definition M (A : Type) : Type := world -> outcome A * world.

Definition ret {A : Type} (a : A) : M A := fun w => (Ok a, w).

Definition bind {A B : Type} (m : M A) (k : A -> M B) : M B :=
  fun w =>
    match m w with
    | (Ok a, w') => k a w'
    | (Raised e, w') => (Raised e, w')
    end.

Definition raise {A : Type} (e : exc) : M A := fun w => (Raised e, w).

(** [frappe.throw(msg, exc)]; the exception defaults to [ValidationError]. *)
Definition throw {A : Type} (msg : string) (kind : exc_type) : M A :=
  raise {| exc_kind := kind; exc_msg := msg |}.

(** [try: m  except Exception as e: handler e]. *)
Definition try_except {A : Type} (m : M A) (handler : exc -> M A) : M A :=
  fun w =>
    match m w with
    | (Ok a, w') => (Ok a, w')
    | (Raised e, w') => handler e w'
    end.

Definition lift {A : Type} (o : outcome A) : M A := fun w => (o, w).

Definition record_call (c : db_call) : M unit :=
  fun w =>
    (Ok tt, {| tabProject := tabProject w;
               tabTimeLog := tabTimeLog w;
               naming_series := naming_series w;
               db_calls := c :: db_calls w;
               response := response w |}).

Declare Scope request_scope.
Delimit Scope request_scope with request.
Notation "x <- m ;; k" := (bind m (fun x => k))
  (at level 61, m at next level, right associativity) : request_scope.
Notation "m ;; k" := (bind m (fun _ => k))
  (at level 61, right associativity) : request_scope.
Local Open Scope request_scope.

Definition gets {A : Type} (f : world -> A) : M A := fun w => (Ok (f w), w).

(** ** Rendering numbers into text *)

Definition str_of_nat (n : nat) : string :=
  NilZero.string_of_uint (Nat.to_uint n).

Definition str_of_Z (z : Z) : string :=
  NilZero.string_of_int (Z.to_int z).

(** The format code [02d]. *)
Definition fmt_02d (z : Z) : string :=
  if ((0 <=? z) && (z <? 10))%Z then "0" ++ str_of_Z z else str_of_Z z.

(** [str] of a [datetime.date]: [YYYY-MM-DD]. *)
Definition str_of_date (d : date) : string :=
  let y := year d in
  let pad := if (y <? 10)%Z then "000"
             else if (y <? 100)%Z then "00"
             else if (y <? 1000)%Z then "0" else "" in
  pad ++ str_of_Z y ++ "-" ++ fmt_02d (month d) ++ "-" ++ fmt_02d (day d).

Fixpoint remove_commas (s : string) : string :=
  match s with
  | EmptyString => EmptyString
  | String c s' =>
      if Ascii.eqb c ","%char then remove_commas s'
      else String c (remove_commas s')
  end.

(** Rows handed back by a query on [tabTime Log] ([frappe._dict]): the
    fields are Python values. *)
Record Row : Type := {
  row_name : string;
  row_hours : pyval;
  row_log_date : date;
  row_logged_by : string;
  row_description : string
}.

Definition row_of (t : TimeLog) : Row :=
  {| row_name := name t;
     row_hours := PyFloat (hours t);
     row_log_date := log_date t;
     row_logged_by := logged_by t;
     row_description := description t |}.

Definition lookup_project (key : string) (w : world) : option Project :=
  option_map snd (find (fun kv => (fst kv =? key)%string) (tabProject w)).

Definition lookup_time_log (key : string) (w : world) : option TimeLog :=
  find (fun t => (name t =? key)%string) (tabTimeLog w).

Definition is_some {A : Type} (o : option A) : bool :=
  match o with Some _ => true | None => false end.

(** [autoname] of a Time Log: a naming series over a counter. *)
Definition autoname (n : nat) : string := "TL-" ++ str_of_nat n.

Section Methods.

Variable host : Host.
Variable sess : session.

(** [frappe.utils.flt]: the safe float converter; whatever [float()]
    refuses becomes [0.0] (time_api.py, step 1 of [log_time]). *)
Definition flt (v : pyval) : Q :=
  match v with
  | PyNone => 0
  | PyInt z => inject_Z z
  | PyFloat q => q
  | PyStr s =>
      match py_float host (remove_commas s) with
      | Some q => q
      | None => 0
      end
  end.

(** Python's [int(v)]. *)
Definition int (v : pyval) : outcome Z :=
  match v with
  | PyNone =>
      Raised {| exc_kind := TypeError;
                exc_msg := "int() argument must be a string or a number" |}
  | PyInt z => Ok z
  | PyFloat q => Ok (Z.quot (Qnum q) (Zpos (Qden q)))
  | PyStr s =>
      match py_int host s with
      | Some z => Ok z
      | None =>
          Raised {| exc_kind := ValueError;
                    exc_msg := "invalid literal for int(): " ++ s |}
      end
  end.

(** [str(v)], as an f-string renders a field. *)
Definition py_str (v : pyval) : string :=
  match v with
  | PyNone => "None"
  | PyInt z => str_of_Z z
  | PyFloat q => py_str_float host q
  | PyStr s => s
  end.

(** [sum(flt(log.hours) for log in logs)]: from 0, left to right. *)
Definition sum_hours (logs : list Row) : Q :=
  fold_left (fun acc log => acc + flt (row_hours log)) logs 0.

(** Whether the caller holds one of the roles. *)
Definition holds_role (allowed : list string) : bool :=
  existsb (fun r => existsb (String.eqb r) (roles sess)) allowed.

(** [frappe.only_for(roles)]. *)
Definition only_for (allowed : list string) : M unit :=
  if holds_role allowed
  then ret tt
  else throw "You are not permitted to access this resource" PermissionError.

(** *** Database calls *)

Definition db_exists_project (key : string) : M bool :=
  record_call (CallExists "Project" key) ;;
  gets (fun w => is_some (lookup_project key w)).

Definition db_get_value_project (key : string) : M (option Project) :=
  record_call (CallGetValue "Project" key) ;;
  gets (lookup_project key).

Definition db_commit : M unit := record_call CallCommit.

(** [frappe.db.get_list("Time Log", filters, fields, order_by, limit)]:
    refused without read permission; without [order_by] every row ties. *)
Definition db_get_list (filters : TimeLog -> bool)
  (order_by : TimeLog -> TimeLog -> bool) (limit : option nat)
  : M (list Row) :=
  if negb (has_permission sess "Time Log" "read" None)
  then throw "Insufficient Permission for Time Log" PermissionError
  else
    record_call (CallGetList "Time Log") ;;
    rows <- gets (fun w => sql_order_by host TimeLog order_by
                             (filter filters (tabTimeLog w))) ;;
    ret (map row_of (match limit with
                     | Some n => firstn n rows
                     | None => rows
                     end)).

(** [frappe.get_doc("Time Log", name)]. *)
Definition get_doc (key : string) : M TimeLog :=
  record_call (CallGetDoc "Time Log" key) ;;
  found <- gets (lookup_time_log key) ;;
  match found with
  | Some doc => ret doc
  | None => throw ("Time Log " ++ key ++ " not found") DoesNotExistError
  end.

(** Modelled from the spec: the [before_insert] handler
    [validate_time_log] that hooks.py wires to Time Log is not in the
    sources; it rejects an entry whose hours exceed 24. *)
Definition validate_time_log (doc : TimeLog) : M unit :=
  if Qltb 24 (hours doc)
  then throw "Hours cannot exceed 24 in a day" ValidationError
  else ret tt.

(** Modelled from the spec: the [after_insert] and [on_update] handler
    [update_project_billing] is not in the sources; it recomputes the
    billing of the project and leaves the Time Log rows and the billing
    rate as they are. *)
Definition update_project_billing (doc : TimeLog) : M unit := ret tt.

Definition add_time_log (doc : TimeLog) : M unit :=
  fun w =>
    (Ok tt, {| tabProject := tabProject w;
               tabTimeLog := tabTimeLog w ++ [doc];
               naming_series := S (naming_series w);
               db_calls := db_calls w;
               response := response w |}).

Definition set_name (doc : TimeLog) (key : string) : TimeLog :=
  {| name := key; project := project doc; hours := hours doc;
     description := description doc; log_date := log_date doc;
     logged_by := logged_by doc; docstatus := 0 |}.

(** [doc.insert(ignore_permissions=False)] of a new Time Log. *)
Definition insert (doc : TimeLog) : M TimeLog :=
  if negb (has_permission sess "Time Log" "create" None)
  then throw "Insufficient Permission for Time Log" PermissionError
  else
    validate_time_log doc ;;
    n <- gets naming_series ;;
    let doc' := set_name doc (autoname (S n)) in
    record_call (CallInsert "Time Log" (name doc')) ;;
    add_time_log doc' ;;
    update_project_billing doc' ;;
    ret doc'.

Definition replace_time_log (doc : TimeLog) : M unit :=
  fun w =>
    (Ok tt, {| tabProject := tabProject w;
               tabTimeLog :=
                 map (fun t => if (name t =? name doc)%string then doc else t)
                     (tabTimeLog w);
               naming_series := naming_series w;
               db_calls := db_calls w;
               response := response w |}).

(** [doc.save(ignore_permissions=False)] of an existing Time Log. *)
Definition save (doc : TimeLog) : M unit :=
  if negb (has_permission sess "Time Log" "write" (Some (name doc)))
  then throw "Insufficient Permission for Time Log" PermissionError
  else
    record_call (CallSave "Time Log" (name doc)) ;;
    replace_time_log doc ;;
    update_project_billing doc.

(** ** time_api.py *)

Record log_time_result : Type := {
  lt_success : bool;
  lt_time_log : string
}.

(** [log_time(project, hours, description=None, log_date=None)].  The
    text of the returned message is left out. *)
Definition log_time (project_arg : string) (hours_arg : pyval)
  (description_arg : option string) (log_date_arg : option date)
  : M log_time_result :=
  if negb (truthy (PyStr project_arg))
  then throw "Project is required" ValidationError
  else
    let hours_f := flt hours_arg in
    if Qleb hours_f 0
    then throw "Hours must be greater than 0" ValidationError
    else if Qltb 24 hours_f
    then throw "Hours cannot exceed 24 in a day" ValidationError
    else if negb (has_permission sess "Time Log" "create" None)
    then throw "You don't have permission to create Time Logs" PermissionError
    else
      found <- db_exists_project project_arg ;;
      if negb found
      then throw ("Project " ++ project_arg ++ " does not exist") ValidationError
      else
        time_log <- insert
          {| name := "";
             project := project_arg;
             hours := hours_f;
             description := match description_arg with
                            | Some d => d
                            | None => ""
                            end;
             log_date := match log_date_arg with
                         | Some d => d
                         | None => today sess
                         end;
             logged_by := user sess;
             docstatus := 0 |} ;;
        db_commit ;;
        ret {| lt_success := true; lt_time_log := name time_log |}.

Record project_summary : Type := {
  ps_project : string;
  ps_total_hours : Q;
  ps_billing_rate : pyval;
  ps_total_amount : Q;
  ps_log_count : nat;
  ps_logs : list Row
}.

(** [get_project_summary(project)]. *)
Definition get_project_summary (project_arg : string) : M project_summary :=
  found <- db_exists_project project_arg ;;
  if negb found
  then throw ("Project not found: " ++ project_arg) ValidationError
  else
    logs <- db_get_list
              (fun t => (project t =? project_arg)%string)
              (fun a b => date_leb (log_date b) (log_date a))
              (Some 100%nat) ;;
    found_project <- db_get_value_project project_arg ;;
    let project_billing_rate :=
      py_or (match found_project with
             | Some p => billing_rate p
             | None => PyNone
             end) (PyInt 0) in
    let total_hours := sum_hours logs in
    let total_amount := total_hours * flt project_billing_rate in
    ret {| ps_project := project_arg;
           ps_total_hours := total_hours;
           ps_billing_rate := project_billing_rate;
           ps_total_amount := total_amount;
           ps_log_count := length logs;
           ps_logs := logs |}.

(** One row of the grouped query of [get_all_employees_hours]. *)
Record employee_hours : Type := {
  eh_logged_by : string;
  eh_total_hours : Q;
  eh_entries : nat;
  eh_project : string
}.

Definition same_group (t : TimeLog) (g : employee_hours) : bool :=
  ((logged_by t =? eh_logged_by g) && (project t =? eh_project g))%string.

(** GROUP BY tl.logged_by, tl.project with SUM(tl.hours) and
    COUNT(tl.name): a row joins the group of its key or opens a new one. *)
Fixpoint add_to_groups (t : TimeLog) (gs : list employee_hours)
  : list employee_hours :=
  match gs with
  | [] => [ {| eh_logged_by := logged_by t;
               eh_total_hours := hours t;
               eh_entries := 1;
               eh_project := project t |} ]
  | g :: gs' =>
      if same_group t g
      then {| eh_logged_by := eh_logged_by g;
              eh_total_hours := eh_total_hours g + hours t;
              eh_entries := S (eh_entries g);
              eh_project := eh_project g |} :: gs'
      else g :: add_to_groups t gs'
  end.

Definition group_by_employee_project (rows : list TimeLog)
  : list employee_hours :=
  fold_left (fun gs t => add_to_groups t gs) rows [].

(** How the database compares a date part with a bound parameter. *)
Definition sql_eq_number (n : Z) (v : pyval) : bool :=
  match v with
  | PyNone => false
  | PyInt z => (n =? z)%Z
  | PyFloat q => Qeq_bool (inject_Z n) q
  | PyStr s => Qeq_bool (inject_Z n) (sql_number host s)
  end.

(** The WHERE clause of the grouped query. *)
Definition in_report_period (month_v year_v : pyval) (t : TimeLog) : bool :=
  sql_eq_number (month (log_date t)) month_v &&
  sql_eq_number (year (log_date t)) year_v &&
  negb (docstatus t =? 2)%Z.

(** ORDER BY total_hours DESC. *)
Definition total_hours_desc (a b : employee_hours) : bool :=
  Qleb (eh_total_hours b) (eh_total_hours a).

Definition sql_employee_hours (month_v year_v : pyval)
  : M (list employee_hours) :=
  record_call (CallSql "Time Log") ;;
  gets (fun w =>
          sql_order_by host employee_hours total_hours_desc
            (group_by_employee_project
               (filter (in_report_period month_v year_v) (tabTimeLog w)))).

Record employees_hours_report : Type := {
  er_month : pyval;
  er_year : pyval;
  er_data : list employee_hours
}.

(** [get_all_employees_hours(month=None, year=None)]. *)
Definition get_all_employees_hours (month_arg year_arg : pyval)
  : M employees_hours_report :=
  only_for ["HR Manager"; "System Manager"] ;;
  let today_date := today sess in
  let month_v := py_or month_arg (PyInt (month today_date)) in
  let year_v := py_or year_arg (PyInt (year today_date)) in
  results <- sql_employee_hours month_v year_v ;;
  ret {| er_month := month_v; er_year := year_v; er_data := results |}.

Record update_result : Type := {
  up_success : bool;
  up_time_log : string;
  up_old_hours : Q;
  up_new_hours : Q
}.

(** [frappe.log_error(title, message)] writes an Error Log document. *)
Definition log_error (title : string) : M unit :=
  record_call (CallInsert "Error Log" title).

(** [safe_update_hours(time_log_name, new_hours)]. *)
Definition safe_update_hours (time_log_name : string) (new_hours_arg : pyval)
  : M update_result :=
  let new_hours := flt new_hours_arg in
  try_except
    (doc <- get_doc time_log_name ;;
     (if negb (logged_by doc =? user sess)%string
      then
        if negb (has_permission sess "Time Log" "write" (Some (name doc)))
        then throw "You can only edit your own time logs" PermissionError
        else ret tt
      else ret tt) ;;
     let old_hours := hours doc in
     let doc' := {| name := name doc; project := project doc;
                    hours := new_hours;
                    description := description doc;
                    log_date := log_date doc;
                    logged_by := logged_by doc;
                    docstatus := docstatus doc |} in
     save doc' ;;
     db_commit ;;
     ret {| up_success := true;
            up_time_log := time_log_name;
            up_old_hours := old_hours;
            up_new_hours := new_hours |})
    (fun e =>
       match exc_kind e with
       | PermissionError => raise e
       | DoesNotExistError =>
           throw ("Time Log " ++ time_log_name ++ " not found") ValidationError
       | _ =>
           log_error "Time Tracker: Failed to update hours" ;;
           throw "Something went wrong. Check Error Log for details."
                 ValidationError
       end).

(** One element of the list handed to [bulk_log_time]: a dict; a key that
    is absent reads as [None]. *)
Record log_item : Type := {
  item_project : option string;
  item_hours : pyval;
  item_description : option string;
  item_log_date : option date
}.

Record bulk_error : Type := {
  index : nat;
  error : string
}.

Record bulk_result : Type := {
  created : list string;
  created_count : nat;
  errors : list bulk_error;
  error_count : nat
}.

(** The body of the [try] for one element, at position [idx]. *)
Definition bulk_log_one (idx : nat) (log_data : log_item) : M string :=
  match item_project log_data with
  | Some p =>
      if negb (truthy (PyStr p))
      then throw ("Item " ++ str_of_nat (idx + 1) ++ ": project is required")
                 ValueError
      else
        let hours_f := flt (item_hours log_data) in
        if Qleb hours_f 0
        then throw ("Item " ++ str_of_nat (idx + 1) ++ ": hours must be > 0")
                   ValueError
        else
          doc <- insert
            {| name := "";
               project := p;
               hours := hours_f;
               description := match item_description log_data with
                              | Some d => d
                              | None => ""
                              end;
               log_date := match item_log_date log_data with
                           | Some d => d
                           | None => today sess
                           end;
               logged_by := user sess;
               docstatus := 0 |} ;;
          ret (name doc)
  | None =>
      throw ("Item " ++ str_of_nat (idx + 1) ++ ": project is required")
            ValueError
  end.

(** [for idx, log_data in enumerate(logs)] with its [try]/[except]. *)
Fixpoint bulk_loop (idx : nat) (logs : list log_item)
  (created_acc : list string) (errors_acc : list bulk_error)
  : M (list string * list bulk_error) :=
  match logs with
  | [] => ret (created_acc, errors_acc)
  | log_data :: rest =>
      r <- try_except
             (key <- bulk_log_one idx log_data ;; ret (inl key))
             (fun e => ret (inr {| index := idx; error := exc_msg e |})) ;;
      match r with
      | inl key => bulk_loop (S idx) rest (created_acc ++ [key]) errors_acc
      | inr err => bulk_loop (S idx) rest created_acc (errors_acc ++ [err])
      end
  end.

(** [bulk_log_time(logs)]; [None] stands for an argument that does not
    parse to a list. *)
Definition bulk_log_time (logs : option (list log_item)) : M bulk_result :=
  match logs with
  | None => throw "logs must be a list" ValidationError
  | Some items =>
      r <- bulk_loop 0 items [] [] ;;
      db_commit ;;
      ret {| created := fst r;
             created_count := length (fst r);
             errors := snd r;
             error_count := length (snd r) |}
  end.

(** ** billing_api.py *)

(** The query of [generate_invoice]: the drafts of the project in the
    month, ORDER BY log_date. *)
Definition in_invoice_period (project_arg : string) (month_z year_z : Z)
  (t : TimeLog) : bool :=
  (project t =? project_arg)%string &&
  (month (log_date t) =? month_z)%Z &&
  (year (log_date t) =? year_z)%Z &&
  (docstatus t =? 0)%Z.

Definition sql_invoice_logs (project_arg : string) (month_z year_z : Z)
  : M (list Row) :=
  record_call (CallSql "Time Log") ;;
  gets (fun w =>
          map row_of
            (sql_order_by host TimeLog
               (fun a b => date_leb (log_date a) (log_date b))
               (filter (in_invoice_period project_arg month_z year_z)
                       (tabTimeLog w)))).

Record invoice : Type := {
  inv_project : string;
  inv_customer : string;
  inv_month : Z;
  inv_year : Z;
  inv_total_hours : Q;
  inv_billing_rate : Q;
  inv_total_amount : Q;
  inv_logs : list Row;
  inv_generated_on : date;
  inv_generated_by : string
}.

(** [generate_invoice(project, month=None, year=None)]. *)
Definition generate_invoice (project_arg : string) (month_arg year_arg : pyval)
  : M invoice :=
  let today_date := today sess in
  month_z <- lift (int (py_or month_arg (PyInt (month today_date)))) ;;
  year_z <- lift (int (py_or year_arg (PyInt (year today_date)))) ;;
  only_for ["Time Tracker Manager"; "System Manager"] ;;
  project_data <- db_get_value_project project_arg ;;
  match project_data with
  | None => throw ("Project " ++ project_arg ++ " not found") ValidationError
  | Some pd =>
      let rate := flt (billing_rate pd) in
      if negb (truthy (PyFloat rate))
      then throw ("Billing rate not set for project " ++ project_arg)
                 ValidationError
      else
        logs <- sql_invoice_logs project_arg month_z year_z ;;
        match logs with
        | [] =>
            throw ("No time logs found for " ++ project_arg ++ " in "
                   ++ str_of_Z month_z ++ "/" ++ str_of_Z year_z)
                  ValidationError
        | _ :: _ =>
            let total_hours := sum_hours logs in
            let total_amount := total_hours * rate in
            ret {| inv_project := project_arg;
                   inv_customer := customer pd;
                   inv_month := month_z;
                   inv_year := year_z;
                   inv_total_hours := total_hours;
                   inv_billing_rate := rate;
                   inv_total_amount := total_amount;
                   inv_logs := logs;
                   inv_generated_on := today_date;
                   inv_generated_by := user sess |}
        end
  end.

(** The filter of the export: the project, and log_date between the 1st
    and the 28th of the month, both included. *)
Definition in_timesheet (project_arg : string) (month_z year_z : Z)
  (t : TimeLog) : bool :=
  (project t =? project_arg)%string &&
  (date_leb {| year := year_z; month := month_z; day := 1 |} (log_date t) &&
   date_leb (log_date t) {| year := year_z; month := month_z; day := 28 |}).

Definition newline : string := String (ascii_of_nat 10) EmptyString.

(** One line of the export. *)
Definition csv_line (log : Row) : string :=
  str_of_date (row_log_date log) ++ "," ++ row_logged_by log ++ ","
  ++ py_str (row_hours log) ++ "," ++ row_description log.

Definition set_response (d : download) : M unit :=
  fun w =>
    (Ok tt, {| tabProject := tabProject w;
               tabTimeLog := tabTimeLog w;
               naming_series := naming_series w;
               db_calls := db_calls w;
               response := Some d |}).

(** [download_timesheet_csv(project, month, year)]; the format code [02d]
    takes an int, so [month] and [year] are ints here. *)
Definition download_timesheet_csv (project_arg : string) (month_z year_z : Z)
  : M unit :=
  only_for ["Time Tracker Manager"; "System Manager"] ;;
  logs <- db_get_list (in_timesheet project_arg month_z year_z)
                      (fun _ _ => true) None ;;
  let lines := "Date,Employee,Hours,Description" :: map csv_line logs in
  let csv_content := String.concat newline lines in
  set_response
    {| filename := "timesheet_" ++ project_arg ++ "_" ++ str_of_Z year_z
                   ++ "_" ++ str_of_Z month_z ++ ".csv";
       filecontent := csv_content |}.

End Methods.

(** ** A reference host

    Decimal parsers for [float()] and [int()], a decimal printer, and two
    implementations of ORDER BY by insertion: one keeps the rows that tie
    in the order they came in, the other reverses them. *)

Definition digit_of (c : ascii) : option Z :=
  let n := nat_of_ascii c in
  if ((48 <=? n) && (n <=? 57))%nat then Some (Z.of_nat (n - 48)) else None.

Fixpoint parse_digits (s : string) (acc : Z) : option Z :=
  match s with
  | EmptyString => Some acc
  | String c s' =>
      match digit_of c with
      | Some d => parse_digits s' (10 * acc + d)%Z
      | None => None
      end
  end.

Definition parse_int (s : string) : option Z :=
  match s with
  | EmptyString => None
  | String c s' =>
      if Ascii.eqb c "-"%char
      then if (s' =? "")%string then None
           else option_map Z.opp (parse_digits s' 0)
      else parse_digits s 0
  end.

Fixpoint parse_fraction (s : string) (num : Z) (den : positive) : option Q :=
  match s with
  | EmptyString => Some (num # den)
  | String c s' =>
      match digit_of c with
      | Some d => parse_fraction s' (10 * num + d)%Z (10 * den)%positive
      | None => None
      end
  end.

Fixpoint parse_decimal (s : string) (acc : Z) : option Q :=
  match s with
  | EmptyString => Some (acc # 1)
  | String c s' =>
      if Ascii.eqb c "."%char then parse_fraction s' acc 1
      else match digit_of c with
           | Some d => parse_decimal s' (10 * acc + d)%Z
           | None => None
           end
  end.

Definition parse_float (s : string) : option Q :=
  match s with
  | EmptyString => None
  | String c s' =>
      if (s =? ".")%string || (s =? "-")%string || (s =? "-.")%string
      then None
      else if Ascii.eqb c "-"%char
      then option_map Qopp (parse_decimal s' 0)
      else parse_decimal s 0
  end.

(** Digits after the decimal point, at most [fuel] of them. *)
Fixpoint fraction_digits (fuel : nat) (r : Z) (den : Z) : string :=
  match fuel with
  | O => EmptyString
  | S fuel' =>
      if (r =? 0)%Z then EmptyString
      else str_of_Z (10 * r / den) ++ fraction_digits fuel' ((10 * r) mod den) den
  end.

Definition print_float (q : Q) : string :=
  let n := Z.abs (Qnum q) in
  let d := Zpos (Qden q) in
  let frac := fraction_digits 17 (n mod d) d in
  (if (Qnum q <? 0)%Z then "-" else "") ++ str_of_Z (n / d) ++ "."
  ++ (if (frac =? "")%string then "0" else frac).

Fixpoint insert_sorted {A : Type} (le : A -> A -> bool) (x : A) (l : list A)
  : list A :=
  match l with
  | [] => [x]
  | y :: l' => if le x y then x :: y :: l' else y :: insert_sorted le x l'
  end.

(** Rows that tie keep their order. *)
Definition order_by_stable (A : Type) (le : A -> A -> bool) (l : list A)
  : list A :=
  fold_right (insert_sorted le) [] l.

(** Rows that tie come back in reverse. *)
Definition order_by_reversing (A : Type) (le : A -> A -> bool) (l : list A)
  : list A :=
  fold_left (fun acc x => insert_sorted le x acc) l [].

Definition reference_host : Host :=
  {| py_float := parse_float;
     py_int := parse_int;
     py_str_float := print_float;
     sql_number := fun s => match parse_float s with
                            | Some q => q
                            | None => 0
                            end;
     sql_order_by := order_by_stable |}.

Definition reversing_host : Host :=
  {| py_float := parse_float;
     py_int := parse_int;
     py_str_float := print_float;
     sql_number := fun s => match parse_float s with
                            | Some q => q
                            | None => 0
                            end;
     sql_order_by := order_by_reversing |}.

(** Running a request. *)
Definition run {A : Type} (m : M A) (w : world) : outcome A * world := m w.

(** ** Definitions used by the statements *)

Ltac unfold_request :=
  unfold run, bind, ret, throw, raise, gets, lift, record_call, db_commit,
    db_exists_project, db_get_value_project, try_except in *.

(** The row that a successful [log_time] appends. *)
Definition logged_entry (host : Host) (sess : session) (w : world)
  (project_arg : string) (hours_arg : pyval)
  (description_arg : option string) (log_date_arg : option date) : TimeLog :=
  {| name := autoname (S (naming_series w));
     project := project_arg;
     hours := flt host hours_arg;
     description := match description_arg with Some d => d | None => "" end;
     log_date := match log_date_arg with Some d => d | None => today sess end;
     logged_by := user sess;
     docstatus := 0 |}.

(** ** Sample data *)

Definition jan15 : date := {| year := 2024; month := 1; day := 15 |}.

(** An employee who may create, read and write Time Logs. *)
Definition employee : session :=
  {| user := "ali@example.com";
     roles := ["Time Tracker User"];
     has_permission := fun doctype ptype _ =>
       (doctype =? "Time Log")%string &&
       ((ptype =? "create") || (ptype =? "read") || (ptype =? "write"))%string;
     today := jan15 |}.

(** A manager, with every permission. *)
Definition manager : session :=
  {| user := "sara@example.com";
     roles := ["Time Tracker Manager"; "HR Manager"];
     has_permission := fun _ _ _ => true;
     today := jan15 |}.

(** Two projects, billed at 10 and at nothing, and no Time Log yet. *)
Definition office : world :=
  {| tabProject :=
       [("PROJ-001", {| project_name := "Website";
                        billing_rate := PyFloat 10;
                        customer := "ACME" |});
        ("PROJ-002", {| project_name := "Internal";
                        billing_rate := PyFloat 0;
                        customer := "" |})];
     tabTimeLog := [];
     naming_series := 0;
     db_calls := [];
     response := None |}.

(** ** The aggregation as the specification words it *)

(** The hours of a record: the number in the field, and 0 when the field
    is missing or does not parse. *)
Definition hours_or_zero (host : Host) (log : Row) : Q :=
  match row_hours log with
  | PyNone => 0
  | PyInt z => inject_Z z
  | PyFloat q => q
  | PyStr s =>
      match py_float host (remove_commas s) with
      | Some q => q
      | None => 0
      end
  end.

(** h1 + (h2 + (... + 0)). *)
Definition spec_total_hours (host : Host) (logs : list Row) : Q :=
  fold_right (fun log acc => hours_or_zero host log + acc) 0 logs.


(** The store after one more database call. *)
Definition with_call (c : db_call) (w : world) : world :=
  snd (record_call c w).

(** The rows the query of [generate_invoice] matches. *)
Definition invoice_rows (host : Host) (w : world) (project_arg : string)
  (month_z year_z : Z) : list Row :=
  map row_of
    (sql_order_by host TimeLog
       (fun a b => date_leb (log_date a) (log_date b))
       (filter (in_invoice_period project_arg month_z year_z)
               (tabTimeLog w))).

Definition invoice_roles : list string :=
  ["Time Tracker Manager"; "System Manager"].

Definition report_roles : list string := ["HR Manager"; "System Manager"].

Definition time_log_row (key project_key : string) (h : Q) (d : Z)
  (author : string) (status : Z) : TimeLog :=
  {| name := key; project := project_key; hours := h; description := "";
     log_date := {| year := 2024; month := 1; day := d |};
     logged_by := author; docstatus := status |}.

(** The office in January 2024: on PROJ-001 two drafts, a cancelled and a
    submitted entry; one draft on PROJ-002. *)
Definition busy_office : world :=
  {| tabProject := tabProject office;
     tabTimeLog :=
       [time_log_row "TL-1" "PROJ-001" 2 10 "ali@example.com" 0;
        time_log_row "TL-2" "PROJ-001" 3 29 "ali@example.com" 0;
        time_log_row "TL-3" "PROJ-001" 4 12 "omar@example.com" 2;
        time_log_row "TL-4" "PROJ-001" 5 20 "omar@example.com" 1;
        time_log_row "TL-5" "PROJ-002" 1 5 "ali@example.com" 0];
     naming_series := 5;
     db_calls := [];
     response := None |}.

(** The invariant of the store: the hours of every Time Log lie in
    (0, 24]. *)
Definition hours_in_range (w : world) : Prop :=
  Forall (fun t => 0 < hours t <= 24) (tabTimeLog w).

(** ** Bulk import: the items that go through *)

(** An item goes through when it names a project, its hours coerce to a
    positive number, the caller may create Time Logs and the
    [before_insert] handler lets the hours pass. *)
Definition valid_item (host : Host) (sess : session) (it : log_item) : bool :=
  match item_project it with
  | Some p =>
      truthy (PyStr p) &&
      negb (Qleb (flt host (item_hours it)) 0) &&
      has_permission sess "Time Log" "create" None &&
      negb (Qltb 24 (flt host (item_hours it)))
  | None => false
  end.

(** Positions of the items that do not go through, counted from [idx]. *)
Fixpoint invalid_positions (host : Host) (sess : session) (idx : nat)
  (items : list log_item) : list nat :=
  match items with
  | [] => []
  | it :: rest =>
      if valid_item host sess it
      then invalid_positions host sess (S idx) rest
      else idx :: invalid_positions host sess (S idx) rest
  end.

Definition count_valid (host : Host) (sess : session)
  (items : list log_item) : nat :=
  length (filter (valid_item host sess) items).

(** The Time Log an item becomes, under the name the series gives it. *)
Definition item_entry (host : Host) (sess : session) (n : nat)
  (it : log_item) : TimeLog :=
  {| name := autoname (S n);
     project := match item_project it with Some p => p | None => "" end;
     hours := flt host (item_hours it);
     description := match item_description it with
                    | Some d => d
                    | None => ""
                    end;
     log_date := match item_log_date it with
                 | Some d => d
                 | None => today sess
                 end;
     logged_by := user sess;
     docstatus := 0 |}.

(** The store after the insert of [doc]. *)
Definition inserted (doc : TimeLog) (w : world) : world :=
  {| tabProject := tabProject w;
     tabTimeLog := tabTimeLog w ++ [doc];
     naming_series := S (naming_series w);
     db_calls := CallInsert "Time Log" (name doc) :: db_calls w;
     response := response w |}.

(** The entries a batch appends, the series standing at [n]. *)
Fixpoint batch_entries (host : Host) (sess : session) (n : nat)
  (items : list log_item) : list TimeLog :=
  match items with
  | [] => []
  | it :: rest =>
      if valid_item host sess it
      then item_entry host sess n it :: batch_entries host sess (S n) rest
      else batch_entries host sess n rest
  end.

(** A batch of three: the item in the middle has hours that do not
    parse. *)
Definition sample_batch : list log_item :=
  [ {| item_project := Some "PROJ-001"; item_hours := PyStr "2";
       item_description := Some "Design"; item_log_date := None |};
    {| item_project := Some "PROJ-002"; item_hours := PyStr "abc";
       item_description := None; item_log_date := None |};
    {| item_project := Some "PROJ-001"; item_hours := PyFloat 3;
       item_description := None; item_log_date := Some jan15 |} ].

(** ** The grouped report as the specification words it *)

Definition group_key (g : employee_hours) : string * string :=
  (eh_logged_by g, eh_project g).

Definition entry_key (t : TimeLog) : string * string :=
  (logged_by t, project t).

Definition key_eqb (a b : string * string) : bool :=
  ((fst a =? fst b) && (snd a =? snd b))%string.

(** The entries by one author on one project. *)
Definition entries_of (k : string * string) (rows : list TimeLog)
  : list TimeLog :=
  filter (fun t => key_eqb (entry_key t) k) rows.

Definition total_hours_of (rows : list TimeLog) : Q :=
  fold_right (fun t acc => hours t + acc) 0 rows.

(** A group carries the sum of the hours and the number of the entries of
    its author on its project, and there is such an entry. *)
Definition group_sound (rows : list TimeLog) (g : employee_hours) : Prop :=
  eh_total_hours g == total_hours_of (entries_of (group_key g) rows) /\
  eh_entries g = length (entries_of (group_key g) rows) /\
  (0 < eh_entries g)%nat.

(** One group per (author, project) with an entry, each one sound. *)
Definition groups_inv (rows : list TimeLog) (gs : list employee_hours)
  : Prop :=
  NoDup (map group_key gs) /\
  Forall (group_sound rows) gs /\
  (forall t, In t rows -> In (entry_key t) (map group_key gs)).

(** January 2024 with four groups, first met in the order (ali, PROJ-001),
    (omar, PROJ-001), (ali, PROJ-002), (omar, PROJ-002), totalling 12, 5,
    12 and 3 hours. *)
Definition report_office : world :=
  {| tabProject := tabProject office;
     tabTimeLog :=
       [time_log_row "TL-1" "PROJ-001" 7 3 "ali@example.com" 0;
        time_log_row "TL-2" "PROJ-001" 5 4 "omar@example.com" 0;
        time_log_row "TL-3" "PROJ-002" 12 5 "ali@example.com" 0;
        time_log_row "TL-4" "PROJ-002" 3 8 "omar@example.com" 0;
        time_log_row "TL-5" "PROJ-001" 5 9 "ali@example.com" 0];
     naming_series := 5;
     db_calls := [];
     response := None |}.

(** What [frappe.only_for] raises. *)
Definition not_permitted : exc :=
  {| exc_kind := PermissionError;
     exc_msg := "You are not permitted to access this resource" |}.

(** Two calls of [log_time] on one project, then its summary. *)
Definition log_two_then_summary (host : Host) (sess : session)
  (project_arg : string) (hours1 hours2 : pyval)
  (log_date1 log_date2 : option date) : M project_summary :=
  log_time host sess project_arg hours1 None log_date1 ;;
  log_time host sess project_arg hours2 None log_date2 ;;
  get_project_summary host sess project_arg.


(** ** The names of the stored entries *)

(** No two Time Logs share a name, and every name was issued by the series:
    it is [autoname k] for a [k] the counter has reached. *)
Definition names_unique (w : world) : Prop :=
  NoDup (map name (tabTimeLog w)).

Definition names_issued (w : world) : Prop :=
  forall t, In t (tabTimeLog w) ->
    exists k, (1 <= k <= naming_series w)%nat /\ name t = autoname k.

Definition store_ok (w : world) : Prop := names_unique w /\ names_issued w.

(** What a request leaves alone when it writes nothing: both tables, the
    naming series and the response. *)
Definition same_data (w w' : world) : Prop :=
  tabProject w' = tabProject w /\ tabTimeLog w' = tabTimeLog w /\
  naming_series w' = naming_series w /\ response w' = response w.

(** A call that writes: an insert, a save or a commit. *)
Definition is_write (c : db_call) : bool :=
  match c with
  | CallInsert _ _ | CallSave _ _ | CallCommit => true
  | _ => false
  end.

(** ** safe_update_hours: the document it saves *)

Definition with_hours (doc : TimeLog) (q : Q) : TimeLog :=
  {| name := name doc; project := project doc; hours := q;
     description := description doc; log_date := log_date doc;
     logged_by := logged_by doc; docstatus := docstatus doc |}.

(** The store after the save of [doc]. *)
Definition saved (doc : TimeLog) (w : world) : world :=
  {| tabProject := tabProject w;
     tabTimeLog :=
       map (fun t => if (name t =? name doc)%string then doc else t)
           (tabTimeLog w);
     naming_series := naming_series w;
     db_calls := CallSave "Time Log" (name doc) :: db_calls w;
     response := response w |}.

(** ** bulk_log_time: what an item fails with *)

(** The message of the exception the item at position [idx] raises, and
    [None] when it raises none. *)
Definition item_failure (host : Host) (sess : session) (idx : nat)
  (it : log_item) : option string :=
  match item_project it with
  | None =>
      Some ("Item " ++ str_of_nat (idx + 1) ++ ": project is required")
  | Some p =>
      if negb (truthy (PyStr p))
      then Some ("Item " ++ str_of_nat (idx + 1) ++ ": project is required")
      else if Qleb (flt host (item_hours it)) 0
      then Some ("Item " ++ str_of_nat (idx + 1) ++ ": hours must be > 0")
      else if negb (has_permission sess "Time Log" "create" None)
      then Some "Insufficient Permission for Time Log"
      else if Qltb 24 (flt host (item_hours it))
      then Some "Hours cannot exceed 24 in a day"
      else None
  end.

Fixpoint bulk_errors (host : Host) (sess : session) (idx : nat)
  (items : list log_item) : list bulk_error :=
  match items with
  | [] => []
  | it :: rest =>
      match item_failure host sess idx it with
      | Some msg =>
          {| index := idx; error := msg |}
          :: bulk_errors host sess (S idx) rest
      | None => bulk_errors host sess (S idx) rest
      end
  end.

(** The store after the inserts of a batch, one after the other. *)
Definition batch_inserted (entries : list TimeLog) (w : world) : world :=
  fold_left (fun acc e => inserted e acc) entries w.

(** ** billing_api.py: the annual report

    [export_annual_report] hands a job to the queue and
    [_generate_annual_report_job] mails the requester; the queue and the
    mails of the site stand beside the store. *)

(** The keyword arguments of one [frappe.enqueue]. *)
Record job : Type := {
  job_method : string;
  job_queue : string;
  job_timeout : Z;
  job_now : bool;
  job_year : Z;
  job_requested_by : string
}.

(** One [frappe.sendmail]. *)
Record email : Type := {
  recipients : list string;
  subject : string;
  message : string
}.

Record site : Type := {
  site_store : world;
  enqueued : list job;
  outbox : list email
}.

(** [frappe.enqueue(...)] with [now=False]: the job joins the queue. *)
Definition enqueue (j : job) (s : site) : site :=
  {| site_store := site_store s;
     enqueued := enqueued s ++ [j];
     outbox := outbox s |}.

(** [frappe.sendmail(...)]. *)
Definition sendmail (m : email) (s : site) : site :=
  {| site_store := site_store s;
     enqueued := enqueued s;
     outbox := outbox s ++ [m] |}.

Record annual_report_ack : Type := {
  ack_message : string;
  ack_tip : string
}.

Definition annual_report_job_path : string :=
  "time_tracker.api.billing_api._generate_annual_report_job".

(** [export_annual_report(year)]. *)
Definition export_annual_report (host : Host) (sess : session)
  (year_arg : pyval) (s : site) : outcome annual_report_ack * site :=
  match int host year_arg with
  | Raised e => (Raised e, s)
  | Ok year_z =>
      (Ok {| ack_message := "Annual report for " ++ str_of_Z year_z
                            ++ " is being generated.";
             ack_tip := "Check Scheduled Job Log in ERPNext when complete." |},
       enqueue {| job_method := annual_report_job_path;
                  job_queue := "long";
                  job_timeout := 1800;
                  job_now := false;
                  job_year := year_z;
                  job_requested_by := user sess |} s)
  end.

(** [_generate_annual_report_job(year, requested_by)]. *)
Definition _generate_annual_report_job (year_z : Z) (requested_by : string)
  (s : site) : site :=
  sendmail {| recipients := [requested_by];
              subject := "Annual Report " ++ str_of_Z year_z ++ " Ready";
              message := "Your annual time tracking report for "
                         ++ str_of_Z year_z ++ " has been generated." |} s.

(** A worker takes the job at the head of the queue and calls its method
    with its keyword arguments; a method it does not know is dropped. *)
Definition work_one (s : site) : site :=
  match enqueued s with
  | [] => s
  | j :: rest =>
      let s' := {| site_store := site_store s;
                   enqueued := rest;
                   outbox := outbox s |} in
      if (job_method j =? annual_report_job_path)%string
      then _generate_annual_report_job (job_year j) (job_requested_by j) s'
      else s'
  end.

(** A member of the office who holds no role at all. *)
Definition guest_user : session :=
  {| user := "guest@example.com";
     roles := [];
     has_permission := fun _ _ _ => false;
     today := jan15 |}.

Definition empty_site (w : world) : site :=
  {| site_store := w; enqueued := []; outbox := [] |}.

(** ** The grouped report: what its rows add up to *)

Definition entries_reported (gs : list employee_hours) : nat :=
  fold_right (fun g acc => (eh_entries g + acc)%nat) 0%nat gs.

Definition hours_reported (gs : list employee_hours) : Q :=
  fold_right (fun g acc => eh_total_hours g + acc) 0 gs.

(* ================================================================= *)
(** * Properties *)

Example parse_float_sample :
  parse_float "3.5" = Some (35 # 10) /\ parse_float "abc" = None /\
  parse_int "12" = Some 12%Z /\ parse_int "abc" = None /\
  print_float (7 # 2) = "3.5" /\ print_float 2 = "2.0".
Proof. vm_compute. repeat split; reflexivity. Qed.

(** What [flt] makes of a missing value, of text that is no number and of
    text that is one. *)
Example flt_samples :
  flt reference_host PyNone = 0 /\
  flt reference_host (PyStr "abc") = 0 /\
  flt reference_host (PyStr "") = 0 /\
  (flt reference_host (PyStr "3.5") == (7 # 2)) /\
  (flt reference_host (PyStr "1,250") == 1250) /\
  (flt reference_host (PyInt 8) == 8).
Proof. vm_compute. repeat split; reflexivity. Qed.

(** ** Comparisons *)

Lemma Qleb_true (a b : Q) : Qleb a b = true <-> a <= b.
Proof. unfold Qleb. apply Qle_bool_iff. Qed.

Lemma Qleb_false (a b : Q) : Qleb a b = false <-> b < a.
Proof.
  unfold Qleb. split; intros H.
  - apply Qnot_le_lt. intros Hle. apply Qle_bool_iff in Hle. congruence.
  - destruct (Qle_bool a b) eqn:E; [|reflexivity].
    apply Qle_bool_iff in E. exfalso. exact (Qlt_not_le _ _ H E).
Qed.

Lemma Qltb_true (a b : Q) : Qltb a b = true <-> a < b.
Proof.
  unfold Qltb. rewrite negb_true_iff. apply (Qleb_false b a).
Qed.

Lemma Qltb_false (a b : Q) : Qltb a b = false <-> b <= a.
Proof.
  unfold Qltb. rewrite negb_false_iff. apply (Qleb_true b a).
Qed.

Lemma truthy_str (s : string) : truthy (PyStr s) = true <-> s <> "".
Proof.
  simpl. rewrite negb_true_iff. split; intros H.
  - intros ->. discriminate.
  - destruct (String.eqb_spec s ""); congruence.
Qed.

(** ** log_time *)






(** ** The aggregation step *)

Lemma fold_hours_acc (host : Host) (logs : list Row) (acc : Q) :
  fold_left (fun a log => a + flt host (row_hours log)) logs acc
  == acc + spec_total_hours host logs.
Proof.
  revert acc. induction logs as [|log logs IH]; intros acc; cbn [fold_left].
  - cbn. ring.
  - rewrite IH. cbn [spec_total_hours fold_right].
    assert (E : flt host (row_hours log) = hours_or_zero host log)
      by (unfold flt, hours_or_zero; destruct (row_hours log); reflexivity).
    rewrite E. unfold spec_total_hours. ring.
Qed.

Lemma sum_hours_spec (host : Host) (logs : list Row) :
  sum_hours host logs == spec_total_hours host logs.
Proof.
  unfold sum_hours. rewrite fold_hours_acc. ring.
Qed.

(** What [get_project_summary] returns for a project that exists, to a
    caller who may read Time Logs. *)
Lemma get_project_summary_ok (host : Host) (sess : session) (w : world)
  (project_arg : string) (pd : Project) :
  lookup_project project_arg w = Some pd ->
  has_permission sess "Time Log" "read" None = true ->
  exists w',
    let logs :=
      map row_of
        (firstn 100
           (sql_order_by host TimeLog
              (fun a b => date_leb (log_date b) (log_date a))
              (filter (fun t => (project t =? project_arg)%string)
                      (tabTimeLog w)))) in
    let rate := py_or (billing_rate pd) (PyInt 0) in
    run (get_project_summary host sess project_arg) w
      = (Ok {| ps_project := project_arg;
               ps_total_hours := sum_hours host logs;
               ps_billing_rate := rate;
               ps_total_amount := sum_hours host logs * flt host rate;
               ps_log_count := length logs;
               ps_logs := logs |}, w') /\
    tabTimeLog w' = tabTimeLog w /\ tabProject w' = tabProject w.
Proof.
  intros Hex Hread.
  unfold get_project_summary, db_get_list. rewrite Hread. cbn [negb].
  unfold_request. unfold lookup_project in *.
  cbn -[firstn sum_hours flt length]. rewrite Hex.
  cbn -[firstn sum_hours flt length]. rewrite ?Hex.
  eexists. split; [reflexivity|]. split; reflexivity.
Qed.

(** ** generate_invoice, step by step *)

(** For a caller who holds a role, and a month and a year that coerce:
    the project is looked up, then its rate is tested, then the rows are
    fetched. *)
Lemma generate_invoice_steps (host : Host) (sess : session) (w : world)
  (project_arg : string) (month_arg year_arg : pyval) (month_z year_z : Z) :
  int host (py_or month_arg (PyInt (month (today sess)))) = Ok month_z ->
  int host (py_or year_arg (PyInt (year (today sess)))) = Ok year_z ->
  holds_role sess invoice_roles = true ->
  run (generate_invoice host sess project_arg month_arg year_arg) w =
    let w1 := with_call (CallGetValue "Project" project_arg) w in
    let w2 := with_call (CallSql "Time Log") w1 in
    match lookup_project project_arg w with
    | None =>
        (Raised {| exc_kind := ValidationError;
                   exc_msg := "Project " ++ project_arg ++ " not found" |}, w1)
    | Some pd =>
        let rate := flt host (billing_rate pd) in
        if Qeq_bool rate 0
        then (Raised {| exc_kind := ValidationError;
                        exc_msg := "Billing rate not set for project "
                                   ++ project_arg |}, w1)
        else
          let logs := invoice_rows host w project_arg month_z year_z in
          match logs with
          | [] =>
              (Raised {| exc_kind := ValidationError;
                         exc_msg := "No time logs found for " ++ project_arg
                                    ++ " in " ++ str_of_Z month_z ++ "/"
                                    ++ str_of_Z year_z |}, w2)
          | _ :: _ =>
              (Ok {| inv_project := project_arg;
                     inv_customer := customer pd;
                     inv_month := month_z;
                     inv_year := year_z;
                     inv_total_hours := sum_hours host logs;
                     inv_billing_rate := rate;
                     inv_total_amount := sum_hours host logs * rate;
                     inv_logs := logs;
                     inv_generated_on := today sess;
                     inv_generated_by := user sess |}, w2)
          end
    end.
Proof.
  intros Hm Hy Hrole.
  unfold generate_invoice, only_for, sql_invoice_logs, invoice_rows.
  fold invoice_roles. rewrite Hm, Hy, Hrole.
  unfold_request. unfold with_call, record_call, lookup_project.
  cbn -[sum_hours flt str_of_Z String.append].
  destruct (option_map snd (find _ (tabProject w))) as [pd|]; [|reflexivity].
  destruct (Qeq_bool (flt host (billing_rate pd)) 0);
    cbn -[sum_hours flt str_of_Z String.append]; [reflexivity|].
  destruct (map row_of _); reflexivity.
Qed.



(** The summary of PROJ-002, billed at nothing: 1 hour, amount 0. *)
Example summary_at_rate_zero :
  exists res w',
    run (get_project_summary reference_host employee "PROJ-002") busy_office
      = (Ok res, w') /\
    ps_total_hours res == 1 /\ ps_total_amount res == 0 /\
    ps_log_count res = 1%nat.
Proof.
  eexists. eexists. split; [vm_compute; reflexivity|].
  repeat split; reflexivity.
Qed.

(** ** The two ORDER BY of the reference host meet the contract *)

Section InsertionOrder.

Variable A : Type.
Variable le : A -> A -> bool.

Lemma insert_sorted_perm (x : A) (l : list A) :
  Permutation (insert_sorted le x l) (x :: l).
Proof.
  induction l as [|y l IH]; cbn [insert_sorted].
  - apply Permutation_refl.
  - destruct (le x y).
    + apply Permutation_refl.
    + apply Permutation_trans with (y :: x :: l).
      * apply perm_skip. exact IH.
      * apply perm_swap.
Qed.

Hypothesis le_total_preorder : total_preorder le.

Lemma insert_sorted_sorted (x : A) (l : list A) :
  StronglySorted (fun a b => le a b = true) l ->
  StronglySorted (fun a b => le a b = true) (insert_sorted le x l).
Proof.
  destruct le_total_preorder as [Htot Htrans].
  induction l as [|y l IH]; intros Hs; cbn [insert_sorted].
  - constructor; constructor.
  - inversion Hs as [|y' l' Hl Hy]; subst.
    destruct (le x y) eqn:E.
    + constructor; [exact Hs|].
      constructor; [exact E|].
      rewrite Forall_forall in *. intros z Hz.
      apply Htrans with y; [exact E|apply Hy; exact Hz].
    + constructor; [apply IH; exact Hl|].
      apply (Permutation_Forall (Permutation_sym (insert_sorted_perm x l))).
      constructor; [|exact Hy].
      destruct (Htot x y) as [H|H]; [congruence|exact H].
Qed.

Lemma order_by_stable_perm (l : list A) :
  Permutation (order_by_stable A le l) l.
Proof.
  induction l as [|x l IH]; cbn.
  - apply Permutation_refl.
  - apply Permutation_trans with (x :: order_by_stable A le l).
    + apply insert_sorted_perm.
    + apply perm_skip. exact IH.
Qed.

Lemma order_by_stable_sorted (l : list A) :
  StronglySorted (fun a b => le a b = true) (order_by_stable A le l).
Proof.
  induction l as [|x l IH]; cbn.
  - constructor.
  - apply insert_sorted_sorted. exact IH.
Qed.

Lemma fold_insert_perm (l acc : list A) :
  Permutation (fold_left (fun acc x => insert_sorted le x acc) l acc)
              (l ++ acc).
Proof.
  revert acc. induction l as [|x l IH]; intros acc; cbn [fold_left].
  - apply Permutation_refl.
  - apply Permutation_trans with (l ++ insert_sorted le x acc)%list.
    + apply IH.
    + cbn. apply Permutation_trans with (l ++ x :: acc)%list.
      * apply Permutation_app_head. apply insert_sorted_perm.
      * apply Permutation_sym. apply Permutation_middle.
Qed.

Lemma fold_insert_sorted (l acc : list A) :
  StronglySorted (fun a b => le a b = true) acc ->
  StronglySorted (fun a b => le a b = true)
    (fold_left (fun acc x => insert_sorted le x acc) l acc).
Proof.
  revert acc. induction l as [|x l IH]; intros acc Hacc; cbn [fold_left].
  - exact Hacc.
  - apply IH. apply insert_sorted_sorted. exact Hacc.
Qed.

End InsertionOrder.

Lemma reference_host_ok : order_by_ok reference_host.
Proof.
  intros A le l. cbn [sql_order_by reference_host]. split.
  - apply order_by_stable_perm.
  - intros Hle. apply order_by_stable_sorted. exact Hle.
Qed.

Lemma reversing_host_ok : order_by_ok reversing_host.
Proof.
  intros A le l. cbn [sql_order_by reversing_host]. split.
  - unfold order_by_reversing.
    apply Permutation_trans with (l ++ [])%list.
    + apply fold_insert_perm.
    + rewrite app_nil_r. apply Permutation_refl.
  - intros Hle. apply fold_insert_sorted; [exact Hle|constructor].
Qed.

(** ** generate_invoice: how it fails *)

Lemma invoice_rows_nil (host : Host) (w : world) (project_arg : string)
  (month_z year_z : Z) :
  order_by_ok host ->
  filter (in_invoice_period project_arg month_z year_z) (tabTimeLog w) = [] ->
  invoice_rows host w project_arg month_z year_z = [].
Proof.
  intros Hok Hnil. unfold invoice_rows. rewrite Hnil.
  destruct (Hok TimeLog (fun a b => date_leb (log_date a) (log_date b)) [])
    as [Hperm _].
  apply Permutation_sym, Permutation_nil in Hperm. rewrite Hperm. reflexivity.
Qed.

(** C3, as the code has it.  For a caller who holds a role and a month and
    a year that coerce, [generate_invoice] fails with a [ValidationError]
    in each of the three cases, told apart by the message: the project is
    absent; its billing rate is zero or unset, whatever entries there are
    and before they are fetched; no draft entry of the project falls in
    the period. *)
Theorem generate_invoice_failures (host : Host) (sess : session) (w : world)
  (project_arg : string) (month_arg year_arg : pyval) (month_z year_z : Z) :
  order_by_ok host ->
  int host (py_or month_arg (PyInt (month (today sess)))) = Ok month_z ->
  int host (py_or year_arg (PyInt (year (today sess)))) = Ok year_z ->
  holds_role sess invoice_roles = true ->
  let w1 := with_call (CallGetValue "Project" project_arg) w in
  (lookup_project project_arg w = None ->
   run (generate_invoice host sess project_arg month_arg year_arg) w
     = (Raised {| exc_kind := ValidationError;
                  exc_msg := "Project " ++ project_arg ++ " not found" |},
        w1)) /\
  (forall pd : Project,
     lookup_project project_arg w = Some pd ->
     flt host (billing_rate pd) == 0 ->
     run (generate_invoice host sess project_arg month_arg year_arg) w
       = (Raised {| exc_kind := ValidationError;
                    exc_msg := "Billing rate not set for project "
                               ++ project_arg |}, w1)) /\
  (forall pd : Project,
     lookup_project project_arg w = Some pd ->
     ~ flt host (billing_rate pd) == 0 ->
     filter (in_invoice_period project_arg month_z year_z) (tabTimeLog w)
       = [] ->
     run (generate_invoice host sess project_arg month_arg year_arg) w
       = (Raised {| exc_kind := ValidationError;
                    exc_msg := "No time logs found for " ++ project_arg
                               ++ " in " ++ str_of_Z month_z ++ "/"
                               ++ str_of_Z year_z |},
          with_call (CallSql "Time Log") w1)).
Proof.
  intros Hok Hm Hy Hrole w1. subst w1.
  rewrite (generate_invoice_steps host sess w project_arg month_arg
             year_arg month_z year_z Hm Hy Hrole).
  cbv zeta. split; [|split].
  - intros ->. reflexivity.
  - intros pd -> Hzero. apply Qeq_bool_iff in Hzero. rewrite Hzero.
    reflexivity.
  - intros pd -> Hrate Hnil.
    destruct (Qeq_bool (flt host (billing_rate pd)) 0) eqn:E.
    + apply Qeq_bool_iff in E. contradiction.
    + rewrite (invoice_rows_nil host w project_arg month_z year_z Hok Hnil).
      reflexivity.
Qed.

Lemma generate_invoice_failures_witness :
  (run (generate_invoice reference_host manager "PROJ-404" PyNone PyNone)
       busy_office
   = (Raised {| exc_kind := ValidationError;
                exc_msg := "Project PROJ-404 not found" |},
      with_call (CallGetValue "Project" "PROJ-404") busy_office)) /\
  (run (generate_invoice reference_host manager "PROJ-002" PyNone PyNone)
       busy_office
   = (Raised {| exc_kind := ValidationError;
                exc_msg := "Billing rate not set for project PROJ-002" |},
      with_call (CallGetValue "Project" "PROJ-002") busy_office)) /\
  (run (generate_invoice reference_host manager "PROJ-001" PyNone PyNone)
       office
   = (Raised {| exc_kind := ValidationError;
                exc_msg := "No time logs found for PROJ-001 in 1/2024" |},
      with_call (CallSql "Time Log")
        (with_call (CallGetValue "Project" "PROJ-001") office))).
Proof.
  split; [|split].
  - apply (proj1 (generate_invoice_failures reference_host manager
                    busy_office "PROJ-404" PyNone PyNone 1 2024
                    reference_host_ok eq_refl eq_refl eq_refl)).
    reflexivity.
  - apply (proj1 (proj2 (generate_invoice_failures reference_host manager
                    busy_office "PROJ-002" PyNone PyNone 1 2024
                    reference_host_ok eq_refl eq_refl eq_refl))
             {| project_name := "Internal"; billing_rate := PyFloat 0;
                customer := "" |}); reflexivity.
  - apply (proj2 (proj2 (generate_invoice_failures reference_host manager
                    office "PROJ-001" PyNone PyNone 1 2024
                    reference_host_ok eq_refl eq_refl eq_refl))
             {| project_name := "Website"; billing_rate := PyFloat 10;
                customer := "ACME" |}); try reflexivity.
    vm_compute. discriminate.
Defined.

(** C3, as the specification has it, fails: an absent project and an
    empty period raise a [ValidationError], not a [DoesNotExistError]. *)
Lemma generate_invoice_not_found_kind :
  lookup_project "PROJ-404" busy_office = None /\
  (exists e w',
     run (generate_invoice reference_host manager "PROJ-404" PyNone PyNone)
         busy_office = (Raised e, w') /\
     exc_kind e = ValidationError /\ exc_kind e <> DoesNotExistError) /\
  filter (in_invoice_period "PROJ-001" 1 2024) (tabTimeLog office) = [] /\
  (exists e w',
     run (generate_invoice reference_host manager "PROJ-001" PyNone PyNone)
         office = (Raised e, w') /\
     exc_kind e = ValidationError /\ exc_kind e <> DoesNotExistError).
Proof.
  split; [reflexivity|]. split; [|split; [reflexivity|]].
  - eexists. eexists. split; [vm_compute; reflexivity|].
    split; [reflexivity|discriminate].
  - eexists. eexists. split; [vm_compute; reflexivity|].
    split; [reflexivity|discriminate].
Qed.

(** ** Which entries the aggregations count *)

(** C4, as the specification has it, fails at a store with a cancelled
    entry (TL-3) and a submitted one (TL-4).  The project summary counts
    the cancelled entry: 14 hours over 4 entries, where the entries that
    are not cancelled make 10 over 3.  The invoice counts the drafts only
    and leaves the submitted entry out: 5 hours.  The grouped report
    leaves out the cancelled entry and no other. *)
Lemma aggregations_and_cancelled_entries :
  map docstatus (tabTimeLog busy_office) = [0; 0; 2; 1; 0]%Z /\
  (exists res w',
     run (get_project_summary reference_host employee "PROJ-001") busy_office
       = (Ok res, w') /\
     map row_name (ps_logs res) = ["TL-2"; "TL-4"; "TL-3"; "TL-1"] /\
     ps_total_hours res == 14 /\ ps_log_count res = 4%nat) /\
  (exists inv w',
     run (generate_invoice reference_host manager "PROJ-001"
            (PyInt 1) (PyInt 2024)) busy_office = (Ok inv, w') /\
     map row_name (inv_logs inv) = ["TL-1"; "TL-2"] /\
     inv_total_hours inv == 5) /\
  (exists rep w',
     run (get_all_employees_hours reference_host manager
            (PyInt 1) (PyInt 2024)) busy_office = (Ok rep, w') /\
     map (fun g => (eh_logged_by g, eh_project g, eh_entries g)) (er_data rep)
       = [("ali@example.com", "PROJ-001", 2%nat);
          ("omar@example.com", "PROJ-001", 1%nat);
          ("ali@example.com", "PROJ-002", 1%nat)] /\
     map eh_total_hours (er_data rep) = [5; 5; 1]).
Proof.
  split; [reflexivity|]. split; [|split].
  - eexists. eexists. split; [vm_compute; reflexivity|].
    split; [reflexivity|]. split; reflexivity.
  - eexists. eexists. split; [vm_compute; reflexivity|].
    split; reflexivity.
  - eexists. eexists. split; [vm_compute; reflexivity|].
    split; [reflexivity|]. vm_compute. reflexivity.
Qed.

Lemma in_invoice_period_iff (project_arg : string) (month_z year_z : Z)
  (t : TimeLog) :
  in_invoice_period project_arg month_z year_z t = true <->
  project t = project_arg /\ month (log_date t) = month_z /\
  year (log_date t) = year_z /\ docstatus t = 0%Z.
Proof.
  unfold in_invoice_period. rewrite !andb_true_iff, !Z.eqb_eq, String.eqb_eq.
  tauto.
Qed.

Lemma in_report_period_iff (host : Host) (month_v year_v : pyval)
  (t : TimeLog) :
  in_report_period host month_v year_v t = true <->
  sql_eq_number host (month (log_date t)) month_v = true /\
  sql_eq_number host (year (log_date t)) year_v = true /\
  docstatus t <> 2%Z.
Proof.
  unfold in_report_period.
  rewrite !andb_true_iff, negb_true_iff, Z.eqb_neq. tauto.
Qed.

(** What [get_all_employees_hours] returns to a caller who holds a role. *)
Lemma get_all_employees_hours_ok (host : Host) (sess : session) (w : world)
  (month_arg year_arg : pyval) :
  holds_role sess report_roles = true ->
  let month_v := py_or month_arg (PyInt (month (today sess))) in
  let year_v := py_or year_arg (PyInt (year (today sess))) in
  run (get_all_employees_hours host sess month_arg year_arg) w
    = (Ok {| er_month := month_v;
             er_year := year_v;
             er_data :=
               sql_order_by host employee_hours total_hours_desc
                 (group_by_employee_project
                    (filter (in_report_period host month_v year_v)
                            (tabTimeLog w))) |},
       with_call (CallSql "Time Log") w).
Proof.
  intros Hrole. unfold get_all_employees_hours, only_for, sql_employee_hours.
  fold report_roles. rewrite Hrole. reflexivity.
Qed.

(** C4, as the code has it.  The invoice is computed over the drafts of
    the project in the period: that leaves out the cancelled entries, and
    the submitted ones with them.  The grouped report is computed over the
    entries of the period that are not cancelled, and leaves out no
    other. *)
Theorem invoice_and_report_entries (host : Host) (sess : session) (w : world)
  (project_arg : string) (month_arg year_arg : pyval) (month_z year_z : Z)
  (pd : Project) :
  order_by_ok host ->
  ((forall t,
      in_invoice_period project_arg month_z year_z t = true <->
      project t = project_arg /\ month (log_date t) = month_z /\
      year (log_date t) = year_z /\ docstatus t = 0%Z) /\
   (int host (py_or month_arg (PyInt (month (today sess)))) = Ok month_z ->
    int host (py_or year_arg (PyInt (year (today sess)))) = Ok year_z ->
    holds_role sess invoice_roles = true ->
    lookup_project project_arg w = Some pd ->
    ~ flt host (billing_rate pd) == 0 ->
    filter (in_invoice_period project_arg month_z year_z) (tabTimeLog w)
      <> [] ->
    exists inv w',
      run (generate_invoice host sess project_arg month_arg year_arg) w
        = (Ok inv, w') /\
      inv_total_hours inv = sum_hours host (inv_logs inv) /\
      Permutation (inv_logs inv)
        (map row_of
           (filter (in_invoice_period project_arg month_z year_z)
                   (tabTimeLog w))))) /\
  (let month_v := py_or month_arg (PyInt (month (today sess))) in
   let year_v := py_or year_arg (PyInt (year (today sess))) in
   (forall t,
      in_report_period host month_v year_v t = true <->
      sql_eq_number host (month (log_date t)) month_v = true /\
      sql_eq_number host (year (log_date t)) year_v = true /\
      docstatus t <> 2%Z) /\
   (holds_role sess report_roles = true ->
    exists rep w',
      run (get_all_employees_hours host sess month_arg year_arg) w
        = (Ok rep, w') /\
      Permutation (er_data rep)
        (group_by_employee_project
           (filter (in_report_period host month_v year_v) (tabTimeLog w))))).
Proof.
  intros Hok. split; [split|].
  - intros t. apply in_invoice_period_iff.
  - intros Hm Hy Hrole Hex Hrate Hrows.
    assert (Hperm : Permutation
              (invoice_rows host w project_arg month_z year_z)
              (map row_of
                 (filter (in_invoice_period project_arg month_z year_z)
                         (tabTimeLog w)))).
    { unfold invoice_rows. apply Permutation_map. apply Hok. }
    rewrite (generate_invoice_steps host sess w project_arg month_arg
               year_arg month_z year_z Hm Hy Hrole).
    cbv zeta. rewrite Hex.
    destruct (Qeq_bool (flt host (billing_rate pd)) 0) eqn:E.
    + apply Qeq_bool_iff in E. contradiction.
    + destruct (invoice_rows host w project_arg month_z year_z) eqn:R.
      * exfalso. apply Permutation_nil in Hperm.
        apply map_eq_nil in Hperm. contradiction.
      * eexists. eexists. split; [reflexivity|].
        cbn [inv_total_hours inv_logs]. split; [reflexivity|exact Hperm].
  - cbv zeta. split.
    + intros t. apply in_report_period_iff.
    + intros Hrole.
      rewrite (get_all_employees_hours_ok host sess w month_arg year_arg
                 Hrole).
      eexists. eexists. split; [reflexivity|].
      cbn [er_data]. apply Hok.
Qed.

Lemma invoice_and_report_entries_witness :
  (exists inv w',
     run (generate_invoice reference_host manager "PROJ-001"
            (PyInt 1) (PyInt 2024)) busy_office = (Ok inv, w') /\
     inv_total_hours inv = sum_hours reference_host (inv_logs inv) /\
     Permutation (inv_logs inv)
       (map row_of
          (filter (in_invoice_period "PROJ-001" 1 2024)
                  (tabTimeLog busy_office)))) /\
  (exists rep w',
     run (get_all_employees_hours reference_host manager
            (PyInt 1) (PyInt 2024)) busy_office = (Ok rep, w') /\
     Permutation (er_data rep)
       (group_by_employee_project
          (filter (in_report_period reference_host (PyInt 1) (PyInt 2024))
                  (tabTimeLog busy_office)))).
Proof.
  pose proof (invoice_and_report_entries reference_host manager busy_office
                "PROJ-001" (PyInt 1) (PyInt 2024) 1 2024
                {| project_name := "Website"; billing_rate := PyFloat 10;
                   customer := "ACME" |} reference_host_ok) as [[_ Hinv] Hrep].
  split.
  - apply Hinv; try reflexivity; vm_compute; discriminate.
  - apply (proj2 Hrep). reflexivity.
Defined.

(** ** The hours of the stored entries *)

(** C5, at its failing input.  In a store whose entries all have hours in
    (0, 24], the author of TL-1 sets its hours to 100 with
    [safe_update_hours], and to -5 as well: both calls succeed and the
    store is left with an entry outside (0, 24]. *)
Theorem safe_update_hours_leaves_range :
  hours_in_range busy_office /\
  (exists r w',
     run (safe_update_hours reference_host employee "TL-1" (PyStr "100"))
         busy_office = (Ok r, w') /\
     up_old_hours r = 2 /\ up_new_hours r = 100 /\
     option_map hours (lookup_time_log "TL-1" w') = Some 100 /\
     ~ hours_in_range w') /\
  (exists r w',
     run (safe_update_hours reference_host employee "TL-1" (PyInt (-5)))
         busy_office = (Ok r, w') /\
     option_map hours (lookup_time_log "TL-1" w') = Some (-5 # 1) /\
     ~ hours_in_range w').
Proof.
  split; [|split].
  - unfold hours_in_range. cbn.
    repeat constructor; discriminate.
  - eexists. eexists. split; [vm_compute; reflexivity|].
    split; [reflexivity|]. split; [reflexivity|]. split; [reflexivity|].
    unfold hours_in_range. cbn. intros H.
    inversion H as [|t l [_ Hhi] _]; subst. apply Hhi. reflexivity.
  - eexists. eexists. split; [vm_compute; reflexivity|].
    split; [reflexivity|].
    unfold hours_in_range. cbn. intros H.
    inversion H as [|t l [Hlo _] _]; subst. discriminate Hlo.
Qed.

(** ** bulk_log_time *)

Lemma bulk_log_one_valid (host : Host) (sess : session) (w : world)
  (idx : nat) (it : log_item) :
  valid_item host sess it = true ->
  run (bulk_log_one host sess idx it) w
    = (Ok (autoname (S (naming_series w))),
       inserted (item_entry host sess (naming_series w) it) w).
Proof.
  unfold valid_item, bulk_log_one, item_entry.
  destruct (item_project it) as [p|]; [|discriminate].
  rewrite !andb_true_iff, !negb_true_iff.
  intros [[[Hp Hlo] Hperm] Hhi].
  rewrite Hp, Hlo. cbn [negb].
  unfold insert, validate_time_log. rewrite Hperm. cbn [negb hours].
  rewrite Hhi. reflexivity.
Qed.









(** ** The entries that [log_time] and [bulk_log_time] create are in range *)




(** ** Grouping by author and project *)

Lemma key_eqb_eq (a b : string * string) : key_eqb a b = true <-> a = b.
Proof.
  destruct a as [a1 a2], b as [b1 b2]. unfold key_eqb. cbn [fst snd].
  rewrite andb_true_iff, !String.eqb_eq. split.
  - intros [-> ->]. reflexivity.
  - intros [= -> ->]. split; reflexivity.
Qed.

Lemma same_group_key (t : TimeLog) (g : employee_hours) :
  same_group t g = key_eqb (entry_key t) (group_key g).
Proof. reflexivity. Qed.

Lemma total_hours_of_app (l1 l2 : list TimeLog) :
  total_hours_of (l1 ++ l2) == total_hours_of l1 + total_hours_of l2.
Proof.
  unfold total_hours_of.
  induction l1 as [|t l1 IH]; cbn [app fold_right].
  - rewrite Qplus_0_l. reflexivity.
  - rewrite IH. rewrite Qplus_assoc. reflexivity.
Qed.

Lemma entries_of_last (k : string * string) (rows : list TimeLog)
  (t : TimeLog) :
  entries_of k (rows ++ [t])
  = (entries_of k rows ++ if key_eqb (entry_key t) k then [t] else [])%list.
Proof.
  unfold entries_of. rewrite filter_app. cbn [filter].
  destruct (key_eqb (entry_key t) k); reflexivity.
Qed.

Lemma group_sound_other (rows : list TimeLog) (t : TimeLog)
  (g : employee_hours) :
  same_group t g = false ->
  group_sound rows g -> group_sound (rows ++ [t]) g.
Proof.
  rewrite same_group_key. intros Hk (Ht & Hn & Hpos).
  unfold group_sound. rewrite entries_of_last, Hk, app_nil_r.
  repeat split; assumption.
Qed.

Lemma add_to_groups_keys (t : TimeLog) (gs : list employee_hours) :
  map group_key (add_to_groups t gs)
  = if existsb (same_group t) gs then map group_key gs
    else (map group_key gs ++ [entry_key t])%list.
Proof.
  induction gs as [|g gs IH]; cbn [add_to_groups existsb map].
  - reflexivity.
  - destruct (same_group t g) eqn:E; cbn [orb map].
    + reflexivity.
    + rewrite IH. destruct (existsb (same_group t) gs); reflexivity.
Qed.

Lemma existsb_same_group (t : TimeLog) (gs : list employee_hours) :
  existsb (same_group t) gs = true <-> In (entry_key t) (map group_key gs).
Proof.
  rewrite existsb_exists, in_map_iff. split.
  - intros (g & Hin & Hs). rewrite same_group_key in Hs.
    apply key_eqb_eq in Hs. exists g. split; [symmetry; exact Hs|exact Hin].
  - intros (g & Hk & Hin). exists g. split; [exact Hin|].
    rewrite same_group_key. apply key_eqb_eq. symmetry. exact Hk.
Qed.

Lemma add_to_groups_sound (rows : list TimeLog) (t : TimeLog)
  (gs : list employee_hours) :
  NoDup (map group_key gs) ->
  Forall (group_sound rows) gs ->
  (existsb (same_group t) gs = false -> entries_of (entry_key t) rows = []) ->
  Forall (group_sound (rows ++ [t])) (add_to_groups t gs).
Proof.
  induction gs as [|g gs IH]; intros Hnd Hs Hnew; cbn [add_to_groups].
  - constructor; [|constructor].
    unfold group_sound. change (group_key _) with (entry_key t).
    cbn [eh_total_hours eh_entries].
    rewrite entries_of_last, (Hnew eq_refl).
    assert (E : key_eqb (entry_key t) (entry_key t) = true)
      by (apply key_eqb_eq; reflexivity).
    rewrite E. cbn. repeat split; [ring|lia].
  - cbn [map] in Hnd. apply NoDup_cons_iff in Hnd. destruct Hnd as [Hg Hnd].
    inversion Hs as [|g' gs' Hsg Hsgs]; subst.
    destruct (same_group t g) eqn:E.
    + constructor.
      * destruct Hsg as (Ht & Hn & Hpos).
        unfold group_sound. change (group_key _) with (group_key g).
        cbn [eh_total_hours eh_entries].
        rewrite entries_of_last.
        rewrite same_group_key in E. rewrite E.
        rewrite total_hours_of_app, length_app, Ht, Hn. cbn.
        repeat split; [ring|lia|lia].
      * rewrite Forall_forall in *. intros g' Hin.
        apply group_sound_other; [|apply Hsgs; exact Hin].
        destruct (same_group t g') eqn:E'; [|reflexivity].
        exfalso. apply Hg.
        rewrite same_group_key in E, E'.
        apply key_eqb_eq in E. apply key_eqb_eq in E'.
        rewrite <- E, E'. apply in_map. exact Hin.
    + constructor.
      * apply group_sound_other; assumption.
      * apply IH; [exact Hnd|exact Hsgs|].
        intros Hex. apply Hnew. cbn [existsb]. rewrite E, Hex. reflexivity.
Qed.

Lemma add_to_groups_inv (rows : list TimeLog) (t : TimeLog)
  (gs : list employee_hours) :
  groups_inv rows gs -> groups_inv (rows ++ [t]) (add_to_groups t gs).
Proof.
  intros (Hnd & Hs & Hcov). unfold groups_inv.
  rewrite add_to_groups_keys.
  destruct (existsb (same_group t) gs) eqn:E.
  - split; [exact Hnd|]. split.
    + apply add_to_groups_sound; [exact Hnd|exact Hs|congruence].
    + intros t' Hin. apply in_app_or in Hin. destruct Hin as [Hin|[<-|[]]].
      * apply Hcov. exact Hin.
      * apply existsb_same_group. exact E.
  - assert (Hfresh : ~ In (entry_key t) (map group_key gs)).
    { intros Hin. apply existsb_same_group in Hin. congruence. }
    split; [|split].
    + apply NoDup_app; [exact Hnd|constructor; [intros []|constructor]|].
      intros k Hk [<-|[]]. exact (Hfresh Hk).
    + apply add_to_groups_sound; [exact Hnd|exact Hs|].
      intros _. unfold entries_of.
      destruct (filter _ rows) as [|t' l] eqn:F; [reflexivity|].
      exfalso. apply Hfresh.
      assert (Hin : In t' (filter (fun t0 => key_eqb (entry_key t0)
                                               (entry_key t)) rows))
        by (rewrite F; left; reflexivity).
      apply filter_In in Hin. destruct Hin as [Hin Hk].
      apply key_eqb_eq in Hk. rewrite <- Hk. apply Hcov. exact Hin.
    + intros t' Hin. apply in_or_app.
      apply in_app_or in Hin. destruct Hin as [Hin|[<-|[]]].
      * left. apply Hcov. exact Hin.
      * right. left. reflexivity.
Qed.

Lemma fold_groups_inv (l pre : list TimeLog) (acc : list employee_hours) :
  groups_inv pre acc ->
  groups_inv (pre ++ l) (fold_left (fun gs t => add_to_groups t gs) l acc).
Proof.
  revert pre acc. induction l as [|t l IH]; intros pre acc Hinv;
    cbn [fold_left].
  - rewrite app_nil_r. exact Hinv.
  - replace (pre ++ t :: l)%list with ((pre ++ [t]) ++ l)%list
      by (rewrite <- app_assoc; reflexivity).
    apply IH. apply add_to_groups_inv. exact Hinv.
Qed.

Lemma group_by_employee_project_inv (rows : list TimeLog) :
  groups_inv rows (group_by_employee_project rows).
Proof.
  unfold group_by_employee_project.
  apply (fold_groups_inv rows [] []).
  split; [constructor|]. split; [constructor|]. intros t [].
Qed.

(** ** get_all_employees_hours *)

Lemma total_hours_desc_preorder : total_preorder total_hours_desc.
Proof.
  unfold total_hours_desc. split.
  - intros a b.
    destruct (Qlt_le_dec (eh_total_hours a) (eh_total_hours b)) as [H|H].
    + right. apply Qleb_true. apply Qlt_le_weak. exact H.
    + left. apply Qleb_true. exact H.
  - intros a b c Hab Hbc. apply Qleb_true in Hab. apply Qleb_true in Hbc.
    apply Qleb_true. exact (Qle_trans _ _ _ Hbc Hab).
Qed.

Lemma sorted_by_total_hours (l : list employee_hours) :
  StronglySorted (fun a b => total_hours_desc a b = true) l ->
  StronglySorted (fun a b => eh_total_hours b <= eh_total_hours a) l.
Proof.
  induction 1 as [|a l Hs IH Hall]; constructor; [exact IH|].
  rewrite Forall_forall in *. intros b Hb.
  apply Qleb_true. exact (Hall b Hb).
Qed.

(** In a list sorted by total hours, a group with more hours stands before
    a group with fewer. *)
Lemma sorted_more_hours_first (l : list employee_hours) :
  StronglySorted (fun a b => eh_total_hours b <= eh_total_hours a) l ->
  forall i j gi gj,
    nth_error l i = Some gi -> nth_error l j = Some gj ->
    eh_total_hours gj < eh_total_hours gi -> (i < j)%nat.
Proof.
  induction 1 as [|a l Hs IH Hall]; intros i j gi gj Hi Hj Hlt.
  - destruct i; discriminate.
  - destruct i as [|i], j as [|j]; cbn [nth_error] in Hi, Hj.
    + injection Hi as <-. injection Hj as <-.
      exfalso. exact (Qlt_irrefl _ Hlt).
    + lia.
    + injection Hj as <-. exfalso.
      rewrite Forall_forall in Hall.
      apply nth_error_In in Hi. specialize (Hall gi Hi).
      exact (Qlt_not_le _ _ Hlt Hall).
    + apply -> Nat.succ_lt_mono. exact (IH i j gi gj Hi Hj Hlt).
Qed.

(** C7, as the code has it.  For a caller who holds a role the report has
    one row per (author, project) with an entry in the period that is not
    cancelled, carrying the sum of the hours and the number of those
    entries; the rows are in descending order of total hours, so a group
    with more hours stands before every group with fewer.  The order of
    groups with equal totals is the database's. *)
Theorem employees_hours_grouped_and_sorted (host : Host) (sess : session)
  (w : world) (month_arg year_arg : pyval) :
  order_by_ok host ->
  holds_role sess report_roles = true ->
  let month_v := py_or month_arg (PyInt (month (today sess))) in
  let year_v := py_or year_arg (PyInt (year (today sess))) in
  let rows := filter (in_report_period host month_v year_v) (tabTimeLog w) in
  exists rep,
    run (get_all_employees_hours host sess month_arg year_arg) w
      = (Ok rep, with_call (CallSql "Time Log") w) /\
    NoDup (map group_key (er_data rep)) /\
    (forall g, In g (er_data rep) -> group_sound rows g) /\
    (forall t, In t rows -> In (entry_key t) (map group_key (er_data rep))) /\
    StronglySorted (fun a b => eh_total_hours b <= eh_total_hours a)
                   (er_data rep) /\
    (forall i j gi gj,
       nth_error (er_data rep) i = Some gi ->
       nth_error (er_data rep) j = Some gj ->
       eh_total_hours gj < eh_total_hours gi -> (i < j)%nat).
Proof.
  intros Hok Hrole month_v year_v rows.
  rewrite (get_all_employees_hours_ok host sess w month_arg year_arg Hrole).
  eexists. split; [reflexivity|]. cbn [er_data].
  fold month_v year_v rows.
  destruct (Hok employee_hours total_hours_desc
              (group_by_employee_project rows)) as [Hperm Hsorted].
  destruct (group_by_employee_project_inv rows) as (Hnd & Hs & Hcov).
  assert (Hsort : StronglySorted
                    (fun a b => eh_total_hours b <= eh_total_hours a)
                    (sql_order_by host employee_hours total_hours_desc
                       (group_by_employee_project rows))).
  { apply sorted_by_total_hours. apply Hsorted.
    exact total_hours_desc_preorder. }
  split; [|split; [|split; [|split]]].
  - apply (Permutation_NoDup
             (Permutation_map group_key (Permutation_sym Hperm))).
    exact Hnd.
  - intros g Hin. rewrite Forall_forall in Hs. apply Hs.
    exact (Permutation_in g Hperm Hin).
  - intros t Hin.
    apply (Permutation_in (entry_key t)
             (Permutation_map group_key (Permutation_sym Hperm))).
    apply Hcov. exact Hin.
  - exact Hsort.
  - apply sorted_more_hours_first. exact Hsort.
Qed.

Lemma employees_hours_grouped_and_sorted_witness :
  exists rep,
    run (get_all_employees_hours reference_host manager (PyStr "1") PyNone)
        report_office
      = (Ok rep, with_call (CallSql "Time Log") report_office) /\
    NoDup (map group_key (er_data rep)) /\
    (forall g, In g (er_data rep) ->
       group_sound
         (filter (in_report_period reference_host (PyStr "1") (PyInt 2024))
                 (tabTimeLog report_office)) g) /\
    (forall t,
       In t (filter (in_report_period reference_host (PyStr "1") (PyInt 2024))
                    (tabTimeLog report_office)) ->
       In (entry_key t) (map group_key (er_data rep))) /\
    StronglySorted (fun a b => eh_total_hours b <= eh_total_hours a)
                   (er_data rep) /\
    (forall i j gi gj,
       nth_error (er_data rep) i = Some gi ->
       nth_error (er_data rep) j = Some gj ->
       eh_total_hours gj < eh_total_hours gi -> (i < j)%nat).
Proof.
  apply (employees_hours_grouped_and_sorted reference_host manager
           report_office (PyStr "1") PyNone reference_host_ok).
  reflexivity.
Defined.

(** C7, as the specification has it, fails on the order of the ties.  The
    groups are met in the order (ali, PROJ-001), (omar, PROJ-001),
    (ali, PROJ-002), (omar, PROJ-002) with totals 12, 5, 12, 3.  Both
    databases below honour ORDER BY total_hours DESC; one returns the two
    groups of 12 hours in the order they were met, the other returns
    (ali, PROJ-002) first. *)
Lemma employees_hours_ties_unordered :
  order_by_ok reference_host /\ order_by_ok reversing_host /\
  map (fun g => (eh_logged_by g, eh_project g, eh_total_hours g))
      (group_by_employee_project (tabTimeLog report_office))
    = [("ali@example.com", "PROJ-001", 12);
       ("omar@example.com", "PROJ-001", 5);
       ("ali@example.com", "PROJ-002", 12);
       ("omar@example.com", "PROJ-002", 3)] /\
  (exists rep w',
     run (get_all_employees_hours reference_host manager
            (PyInt 1) (PyInt 2024)) report_office = (Ok rep, w') /\
     map (fun g => (eh_logged_by g, eh_project g, eh_total_hours g))
         (er_data rep)
       = [("ali@example.com", "PROJ-001", 12);
          ("ali@example.com", "PROJ-002", 12);
          ("omar@example.com", "PROJ-001", 5);
          ("omar@example.com", "PROJ-002", 3)]) /\
  (exists rep w',
     run (get_all_employees_hours reversing_host manager
            (PyInt 1) (PyInt 2024)) report_office = (Ok rep, w') /\
     map (fun g => (eh_logged_by g, eh_project g, eh_total_hours g))
         (er_data rep)
       = [("ali@example.com", "PROJ-002", 12);
          ("ali@example.com", "PROJ-001", 12);
          ("omar@example.com", "PROJ-001", 5);
          ("omar@example.com", "PROJ-002", 3)]).
Proof.
  split; [exact reference_host_ok|]. split; [exact reversing_host_ok|].
  split; [vm_compute; reflexivity|]. split.
  - eexists. eexists. split; [vm_compute; reflexivity|].
    vm_compute. reflexivity.
  - eexists. eexists. split; [vm_compute; reflexivity|].
    vm_compute. reflexivity.
Qed.

(** ** Callers without the role *)

(** C8, as the code has it.  A caller without the role gets a
    [PermissionError] from the grouped report, and from [generate_invoice]
    when the month and the year coerce to integers; [generate_invoice]
    always fails for such a caller.  In each case the store is left as it
    was and no call has reached the database. *)
Theorem unauthorized_calls_fetch_nothing (host : Host) (sess : session)
  (w : world) (project_arg : string) (month_arg year_arg : pyval) :
  (holds_role sess report_roles = false ->
   run (get_all_employees_hours host sess month_arg year_arg) w
     = (Raised not_permitted, w)) /\
  (holds_role sess invoice_roles = false ->
   (exists e,
      run (generate_invoice host sess project_arg month_arg year_arg) w
        = (Raised e, w)) /\
   (forall month_z year_z,
      int host (py_or month_arg (PyInt (month (today sess)))) = Ok month_z ->
      int host (py_or year_arg (PyInt (year (today sess)))) = Ok year_z ->
      run (generate_invoice host sess project_arg month_arg year_arg) w
        = (Raised not_permitted, w))).
Proof.
  split.
  - intros Hrole. unfold get_all_employees_hours, only_for.
    fold report_roles. rewrite Hrole. reflexivity.
  - intros Hrole. unfold generate_invoice, only_for.
    fold invoice_roles. rewrite Hrole. unfold_request. split.
    + destruct (int host (py_or month_arg (PyInt (month (today sess)))));
        [|eexists; reflexivity].
      destruct (int host (py_or year_arg (PyInt (year (today sess)))));
        eexists; reflexivity.
    + intros month_z year_z -> ->. reflexivity.
Qed.

Lemma unauthorized_calls_fetch_nothing_witness :
  run (get_all_employees_hours reference_host employee (PyStr "1") PyNone)
      busy_office = (Raised not_permitted, busy_office) /\
  run (generate_invoice reference_host employee "PROJ-001"
         (PyStr "1") (PyStr "2024")) busy_office
    = (Raised not_permitted, busy_office).
Proof.
  pose proof (unauthorized_calls_fetch_nothing reference_host employee
                busy_office "PROJ-001" (PyStr "1") PyNone) as [Hrep _].
  pose proof (unauthorized_calls_fetch_nothing reference_host employee
                busy_office "PROJ-001" (PyStr "1") (PyStr "2024"))
    as [_ Hinv].
  split.
  - apply Hrep. reflexivity.
  - apply (proj2 (Hinv eq_refl) 1%Z 2024%Z); reflexivity.
Defined.

(** C8, as the specification has it, fails: a caller without the role who
    sends a month that is not a number gets a [ValueError] from
    [generate_invoice], raised by the coercion that comes before the role
    is tested. *)
Lemma generate_invoice_coerces_before_role :
  holds_role employee invoice_roles = false /\
  exists e,
    run (generate_invoice reference_host employee "PROJ-001"
           (PyStr "abc") PyNone) busy_office = (Raised e, busy_office) /\
    exc_kind e = ValueError /\ exc_kind e <> PermissionError.
Proof.
  split; [reflexivity|].
  eexists. split; [vm_compute; reflexivity|].
  split; [reflexivity|discriminate].
Qed.

(** ** Logging two entries, then the summary *)

Lemma log_time_run (host : Host) (sess : session) (w : world)
  (project_arg : string) (hours_arg : pyval)
  (description_arg : option string) (log_date_arg : option date) :
  project_arg <> "" ->
  has_permission sess "Time Log" "create" None = true ->
  lookup_project project_arg w <> None ->
  0 < flt host hours_arg <= 24 ->
  run (log_time host sess project_arg hours_arg description_arg log_date_arg) w
    = (Ok {| lt_success := true;
             lt_time_log := autoname (S (naming_series w)) |},
       with_call CallCommit
         (inserted (logged_entry host sess w project_arg hours_arg
                      description_arg log_date_arg)
            (with_call (CallExists "Project" project_arg) w))).
Proof.
  intros Hp Hperm Hex [Hlo Hhi].
  unfold log_time.
  apply truthy_str in Hp. rewrite Hp. cbn [negb].
  apply Qleb_false in Hlo. rewrite Hlo.
  apply Qltb_false in Hhi. rewrite Hhi.
  rewrite Hperm. cbn [negb].
  unfold insert, validate_time_log. rewrite Hperm. cbn [negb hours].
  rewrite Hhi.
  unfold_request. unfold lookup_project in *. cbn -[flt autoname].
  destruct (find _ (tabProject w)) eqn:E; [|cbn in Hex; congruence].
  reflexivity.
Qed.

Lemma spec_total_hours_perm (host : Host) (l l' : list Row) :
  Permutation l l' -> spec_total_hours host l == spec_total_hours host l'.
Proof.
  unfold spec_total_hours.
  induction 1 as [|x l l' _ IH|x y l|l l' l'' _ IH1 _ IH2]; cbn [fold_right].
  - reflexivity.
  - rewrite IH. reflexivity.
  - ring.
  - rewrite IH1. exact IH2.
Qed.

Lemma filter_project_logged (host : Host) (sess : session) (w : world)
  (project_arg : string) (hours_arg : pyval)
  (description_arg : option string) (log_date_arg : option date) :
  (project (logged_entry host sess w project_arg hours_arg
              description_arg log_date_arg) =? project_arg)%string = true.
Proof. cbn [logged_entry project]. apply String.eqb_refl. Qed.

(** C9.  In a store with no entry for the project, billed at 10, a caller
    who may create and read Time Logs logs 2 hours and then 3 hours on it,
    on any two dates (so also two dates of one month); the summary of the
    project then has [total_hours] 5, [total_amount] 50 and [log_count]
    2. *)
Theorem summary_after_two_logs (host : Host) (sess : session) (w : world)
  (project_arg : string) (pd : Project) (hours1 hours2 : pyval)
  (log_date1 log_date2 : option date) :
  order_by_ok host ->
  project_arg <> "" ->
  lookup_project project_arg w = Some pd ->
  flt host (py_or (billing_rate pd) (PyInt 0)) == 10 ->
  has_permission sess "Time Log" "create" None = true ->
  has_permission sess "Time Log" "read" None = true ->
  filter (fun t => (project t =? project_arg)%string) (tabTimeLog w) = [] ->
  flt host hours1 == 2 ->
  flt host hours2 == 3 ->
  exists res w',
    run (log_two_then_summary host sess project_arg hours1 hours2
           log_date1 log_date2) w = (Ok res, w') /\
    ps_total_hours res == 5 /\
    ps_total_amount res == 50 /\
    ps_log_count res = 2%nat.
Proof.
  intros Hok Hp Hex Hrate Hcreate Hread Hnone H1 H2.
  assert (R1 : 0 < flt host hours1 <= 24)
    by (rewrite H1; split; [reflexivity|discriminate]).
  assert (R2 : 0 < flt host hours2 <= 24)
    by (rewrite H2; split; [reflexivity|discriminate]).
  assert (Hex0 : lookup_project project_arg w <> None) by congruence.
  pose proof (log_time_run host sess w project_arg hours1 None log_date1
                Hp Hcreate Hex0 R1) as E1.
  set (e1 := logged_entry host sess w project_arg hours1 None log_date1) in *.
  set (w1 := with_call CallCommit
               (inserted e1 (with_call (CallExists "Project" project_arg) w)))
    in *.
  assert (Hex1 : lookup_project project_arg w1 = Some pd) by exact Hex.
  assert (Hex1' : lookup_project project_arg w1 <> None) by congruence.
  pose proof (log_time_run host sess w1 project_arg hours2 None log_date2
                Hp Hcreate Hex1' R2) as E2.
  set (e2 := logged_entry host sess w1 project_arg hours2 None log_date2) in *.
  set (w2 := with_call CallCommit
               (inserted e2 (with_call (CallExists "Project" project_arg) w1)))
    in *.
  assert (Hex2 : lookup_project project_arg w2 = Some pd) by exact Hex.
  destruct (get_project_summary_ok host sess w2 project_arg pd Hex2 Hread)
    as (w3 & E3 & _).
  cbv zeta in E3.
  unfold log_two_then_summary, run, bind in *.
  rewrite E1, E2, E3.
  eexists. exists w3. split; [reflexivity|].
  cbn [ps_total_hours ps_total_amount ps_log_count].
  assert (Hrows : filter (fun t => (project t =? project_arg)%string)
                         (tabTimeLog w2) = [e1; e2]).
  { change (tabTimeLog w2) with ((tabTimeLog w ++ [e1]) ++ [e2])%list.
    rewrite !filter_app, Hnone. cbn [filter app].
    unfold e1, e2. rewrite !filter_project_logged. reflexivity. }
  rewrite Hrows.
  destruct (Hok TimeLog (fun a b => date_leb (log_date b) (log_date a))
              [e1; e2]) as [Hperm _].
  set (sorted := sql_order_by host TimeLog
                   (fun a b => date_leb (log_date b) (log_date a)) [e1; e2])
    in *.
  assert (Hlen : length sorted = 2%nat)
    by exact (Permutation_length Hperm).
  assert (Hfirst : firstn 100 sorted = sorted)
    by (apply firstn_all2; rewrite Hlen; lia).
  rewrite Hfirst.
  assert (Htotal : sum_hours host (map row_of sorted) == 5).
  { rewrite sum_hours_spec.
    rewrite (spec_total_hours_perm host _ _ (Permutation_map row_of Hperm)).
    unfold spec_total_hours, hours_or_zero, e1, e2.
    cbn [map fold_right row_of row_hours logged_entry hours].
    rewrite H1, H2. reflexivity. }
  split; [exact Htotal|]. split.
  - rewrite Htotal, Hrate. reflexivity.
  - rewrite length_map. exact Hlen.
Qed.

Lemma summary_after_two_logs_witness :
  exists res w',
    run (log_two_then_summary reference_host employee "PROJ-001"
           (PyStr "2") (PyInt 3)
           (Some {| year := 2024; month := 3; day := 4 |})
           (Some {| year := 2024; month := 3; day := 18 |})) office
      = (Ok res, w') /\
    ps_total_hours res == 5 /\
    ps_total_amount res == 50 /\
    ps_log_count res = 2%nat.
Proof.
  apply (summary_after_two_logs reference_host employee office "PROJ-001"
           {| project_name := "Website"; billing_rate := PyFloat 10;
              customer := "ACME" |}).
  - exact reference_host_ok.
  - discriminate.
  - reflexivity.
  - reflexivity.
  - reflexivity.
  - reflexivity.
  - reflexivity.
  - reflexivity.
  - reflexivity.
Defined.

(** ** download_timesheet_csv *)

Lemma in_timesheet_iff (project_arg : string) (month_z year_z : Z)
  (t : TimeLog) :
  in_timesheet project_arg month_z year_z t = true <->
  project t = project_arg /\ year (log_date t) = year_z /\
  month (log_date t) = month_z /\ (1 <= day (log_date t) <= 28)%Z.
Proof.
  unfold in_timesheet, date_leb. cbn [year month day].
  rewrite !andb_true_iff, !orb_true_iff, !andb_true_iff, !orb_true_iff,
    !andb_true_iff, String.eqb_eq, !Z.ltb_lt, !Z.eqb_eq, !Z.leb_le.
  split.
  - intros (Hp & Hlo & Hhi). split; [exact Hp|]. lia.
  - intros (Hp & Hy & Hm & Hd). split; [exact Hp|]. lia.
Qed.

(** C10.  For a caller who holds a role and may read Time Logs, the
    export is the header line followed by one line per entry of the
    project dated from the 1st to the 28th of the month, both included, and
    by no other line: an entry of the month dated the 29th or later is not
    among the exported entries. *)
Theorem timesheet_stops_at_the_28th (host : Host) (sess : session)
  (w : world) (project_arg : string) (month_z year_z : Z) :
  order_by_ok host ->
  holds_role sess invoice_roles = true ->
  has_permission sess "Time Log" "read" None = true ->
  exists exported w',
    run (download_timesheet_csv host sess project_arg month_z year_z) w
      = (Ok tt, w') /\
    option_map filecontent (response w')
      = Some (String.concat newline
                ("Date,Employee,Hours,Description"
                 :: map (csv_line host) (map row_of exported))) /\
    (forall t,
       In t exported <->
       In t (tabTimeLog w) /\ project t = project_arg /\
       year (log_date t) = year_z /\ month (log_date t) = month_z /\
       (1 <= day (log_date t) <= 28)%Z) /\
    length exported
      = length (filter (in_timesheet project_arg month_z year_z)
                       (tabTimeLog w)) /\
    (forall t,
       In t (tabTimeLog w) ->
       year (log_date t) = year_z -> month (log_date t) = month_z ->
       (29 <= day (log_date t))%Z ->
       ~ In t exported).
Proof.
  intros Hok Hrole Hread.
  destruct (Hok TimeLog (fun _ _ => true)
              (filter (in_timesheet project_arg month_z year_z)
                      (tabTimeLog w))) as [Hperm _].
  set (exported := sql_order_by host TimeLog (fun _ _ => true)
                     (filter (in_timesheet project_arg month_z year_z)
                             (tabTimeLog w))) in *.
  assert (Hin : forall t,
            In t exported <->
            In t (tabTimeLog w) /\ project t = project_arg /\
            year (log_date t) = year_z /\ month (log_date t) = month_z /\
            (1 <= day (log_date t) <= 28)%Z).
  { intros t. rewrite <- in_timesheet_iff, <- filter_In. split.
    - apply Permutation_in. exact Hperm.
    - apply Permutation_in. apply Permutation_sym. exact Hperm. }
  exists exported. eexists. split; [|split; [|split; [|split]]].
  - unfold download_timesheet_csv, only_for, db_get_list.
    fold invoice_roles. rewrite Hrole, Hread. reflexivity.
  - reflexivity.
  - exact Hin.
  - exact (Permutation_length Hperm).
  - intros t _ _ _ Hday Hexp. apply Hin in Hexp. lia.
Qed.

Lemma timesheet_stops_at_the_28th_witness :
  exists exported w',
    run (download_timesheet_csv reference_host manager "PROJ-001" 1 2024)
        busy_office = (Ok tt, w') /\
    option_map filecontent (response w')
      = Some (String.concat newline
                ("Date,Employee,Hours,Description"
                 :: map (csv_line reference_host) (map row_of exported))) /\
    (forall t,
       In t exported <->
       In t (tabTimeLog busy_office) /\ project t = "PROJ-001" /\
       year (log_date t) = 2024%Z /\ month (log_date t) = 1%Z /\
       (1 <= day (log_date t) <= 28)%Z) /\
    length exported
      = length (filter (in_timesheet "PROJ-001" 1 2024)
                       (tabTimeLog busy_office)) /\
    (forall t,
       In t (tabTimeLog busy_office) ->
       year (log_date t) = 2024%Z -> month (log_date t) = 1%Z ->
       (29 <= day (log_date t))%Z ->
       ~ In t exported).
Proof.
  apply (timesheet_stops_at_the_28th reference_host manager busy_office
           "PROJ-001" 1 2024 reference_host_ok); reflexivity.
Defined.

(** The export of PROJ-001 for January 2024: TL-2, dated the 29th, is not
    in it. *)
Example timesheet_sample :
  option_map filecontent
    (response
       (snd (run (download_timesheet_csv reference_host manager
                    "PROJ-001" 1 2024) busy_office)))
  = Some ("Date,Employee,Hours,Description" ++ newline
          ++ "2024-01-10,ali@example.com,2.0," ++ newline
          ++ "2024-01-12,omar@example.com,4.0," ++ newline
          ++ "2024-01-20,omar@example.com,5.0,").
Proof. vm_compute. reflexivity. Qed.

(* ================================================================= *)
(** * Further properties of the methods *)

(** ** Names issued by the series *)

Lemma to_uint_nonnil (n : nat) : Nat.to_uint n <> Decimal.Nil.
Proof.
  rewrite <- (DecimalNat.Unsigned.of_to n) at 1.
  rewrite DecimalNat.Unsigned.to_of.
  apply DecimalFacts.unorm_nonnil.
Qed.

Lemma str_of_nat_inj (a b : nat) : str_of_nat a = str_of_nat b -> a = b.
Proof.
  unfold str_of_nat. intros E.
  apply DecimalNat.Unsigned.to_uint_inj.
  pose proof (NilZero.usu (Nat.to_uint a) (to_uint_nonnil a)) as Ha.
  pose proof (NilZero.usu (Nat.to_uint b) (to_uint_nonnil b)) as Hb.
  rewrite E in Ha. congruence.
Qed.

Lemma autoname_inj (a b : nat) : autoname a = autoname b -> a = b.
Proof.
  unfold autoname. cbn. intros [= E]. apply str_of_nat_inj. exact E.
Qed.

Lemma fresh_name (w : world) :
  names_issued w -> ~ In (autoname (S (naming_series w))) (map name (tabTimeLog w)).
Proof.
  intros Hiss Hin. apply in_map_iff in Hin. destruct Hin as (t & Hn & Ht).
  destruct (Hiss t Ht) as (k & Hk & Hname).
  rewrite Hname in Hn. apply autoname_inj in Hn. lia.
Qed.

(** Appending an entry under the next name of the series keeps the names
    unique and issued. *)
Lemma store_ok_append (w w' : world) (e : TimeLog) :
  store_ok w ->
  name e = autoname (S (naming_series w)) ->
  tabTimeLog w' = (tabTimeLog w ++ [e])%list ->
  naming_series w' = S (naming_series w) ->
  store_ok w'.
Proof.
  intros [Hu Hi] He Htab Hser. split.
  - unfold names_unique in *. rewrite Htab, map_app. cbn [map].
    apply NoDup_app; [exact Hu|constructor; [intros []|constructor]|].
    intros k Hk [<-|[]]. rewrite He in Hk. exact (fresh_name w Hi Hk).
  - intros t Ht. rewrite Htab in Ht. apply in_app_or in Ht.
    destruct Ht as [Ht|[<-|[]]].
    + destruct (Hi t Ht) as (k & Hk & Hn). exists k. split; [lia|exact Hn].
    + exists (S (naming_series w)). split; [lia|exact He].
Qed.

Lemma find_name_append (l : list TimeLog) (e : TimeLog) :
  ~ In (name e) (map name l) ->
  find (fun t => (name t =? name e)%string) (l ++ [e]) = Some e.
Proof.
  induction l as [|t l IH]; intros Hfresh; cbn [app find].
  - rewrite String.eqb_refl. reflexivity.
  - destruct (String.eqb_spec (name t) (name e)) as [E|_].
    + exfalso. apply Hfresh. left. exact E.
    + apply IH. intros Hin. apply Hfresh. right. exact Hin.
Qed.

(** ** log_time: all or nothing, and the name it returns *)

(** X1.  [log_time] is all or nothing.  Either it returns and the store
    has gained exactly the one entry, under the name returned, the commit
    being the last call made; or it raises and both tables, the series and
    the response are as before and no insert, save or commit was made. *)
Theorem log_time_all_or_nothing (host : Host) (sess : session) (w w' : world)
  (project_arg : string) (hours_arg : pyval)
  (description_arg : option string) (log_date_arg : option date)
  (o : outcome log_time_result) :
  run (log_time host sess project_arg hours_arg description_arg log_date_arg) w
    = (o, w') ->
  (exists r,
     o = Ok r /\
     tabTimeLog w' = (tabTimeLog w
       ++ [logged_entry host sess w project_arg hours_arg
             description_arg log_date_arg])%list /\
     lt_time_log r = name (logged_entry host sess w project_arg hours_arg
                             description_arg log_date_arg) /\
     naming_series w' = S (naming_series w) /\
     tabProject w' = tabProject w /\
     hd_error (db_calls w') = Some CallCommit) \/
  (exists e,
     o = Raised e /\ same_data w w' /\
     filter is_write (db_calls w') = filter is_write (db_calls w)).
Proof.
  unfold log_time, run, same_data.
  destruct (truthy (PyStr project_arg)); cbn [negb];
    [|intros [= <- <-]; right; eexists; repeat split; reflexivity].
  destruct (Qleb (flt host hours_arg) 0) eqn:Hlo;
    [intros [= <- <-]; right; eexists; repeat split; reflexivity|].
  destruct (Qltb 24 (flt host hours_arg)) eqn:Hhi;
    [intros [= <- <-]; right; eexists; repeat split; reflexivity|].
  destruct (has_permission sess "Time Log" "create" None) eqn:Hperm;
    cbn [negb]; [|intros [= <- <-]; right; eexists; repeat split; reflexivity].
  unfold insert, validate_time_log. rewrite Hperm. cbn [negb hours].
  rewrite Hhi. unfold_request. unfold lookup_project.
  cbn -[flt autoname].
  destruct (option_map snd (find _ (tabProject w))); cbn -[flt autoname];
    intros [= <- <-].
  - left. eexists. repeat split; reflexivity.
  - right. eexists. repeat split; reflexivity.
Qed.

Lemma log_time_all_or_nothing_witness :
  let res := run (log_time reference_host employee "PROJ-404" (PyInt 2)
                    None None) busy_office in
  (exists r,
     fst res = Ok r /\
     tabTimeLog (snd res) = (tabTimeLog busy_office
       ++ [logged_entry reference_host employee busy_office "PROJ-404"
             (PyInt 2) None None])%list /\
     lt_time_log r = name (logged_entry reference_host employee busy_office
                             "PROJ-404" (PyInt 2) None None) /\
     naming_series (snd res) = S (naming_series busy_office) /\
     tabProject (snd res) = tabProject busy_office /\
     hd_error (db_calls (snd res)) = Some CallCommit) \/
  (exists e,
     fst res = Raised e /\ same_data busy_office (snd res) /\
     filter is_write (db_calls (snd res))
     = filter is_write (db_calls busy_office)).
Proof.
  intros res.
  apply (log_time_all_or_nothing reference_host employee busy_office
           (snd res) "PROJ-404" (PyInt 2) None None (fst res)).
  reflexivity.
Defined.

(** X2.  The name [log_time] returns finds the entry it created.  In a
    store whose names are unique and issued by the series, a call that is
    acceptable returns a name under which [lookup_time_log] finds the new
    entry, with the caller as author; the names stay unique and issued. *)
Theorem log_time_then_lookup (host : Host) (sess : session) (w : world)
  (project_arg : string) (hours_arg : pyval)
  (description_arg : option string) (log_date_arg : option date) :
  store_ok w ->
  project_arg <> "" ->
  has_permission sess "Time Log" "create" None = true ->
  lookup_project project_arg w <> None ->
  0 < flt host hours_arg <= 24 ->
  exists r w',
    run (log_time host sess project_arg hours_arg description_arg
           log_date_arg) w = (Ok r, w') /\
    lookup_time_log (lt_time_log r) w'
      = Some (logged_entry host sess w project_arg hours_arg
                description_arg log_date_arg) /\
    option_map logged_by (lookup_time_log (lt_time_log r) w')
      = Some (user sess) /\
    store_ok w'.
Proof.
  intros Hok Hp Hperm Hex Hin.
  rewrite (log_time_run host sess w project_arg hours_arg description_arg
             log_date_arg Hp Hperm Hex Hin).
  set (e := logged_entry host sess w project_arg hours_arg description_arg
              log_date_arg).
  eexists. eexists. split; [reflexivity|].
  cbn [lt_time_log].
  assert (Hlook : lookup_time_log (autoname (S (naming_series w)))
                    (with_call CallCommit
                       (inserted e
                          (with_call (CallExists "Project" project_arg) w)))
                  = Some e).
  { unfold lookup_time_log. cbn [with_call record_call snd inserted tabTimeLog].
    change (autoname (S (naming_series w))) with (name e).
    apply find_name_append. apply fresh_name. apply Hok. }
  split; [exact Hlook|]. split; [rewrite Hlook; reflexivity|].
  apply (store_ok_append w _ e Hok); reflexivity.
Qed.

Lemma busy_office_ok : store_ok busy_office.
Proof.
  split.
  - unfold names_unique. cbn.
    repeat (constructor; [cbn; intuition discriminate|]). constructor.
  - intros t Ht. cbn in Ht.
    destruct Ht as [<-|[<-|[<-|[<-|[<-|[]]]]]].
    + exists 1%nat. split; [cbn; lia|reflexivity].
    + exists 2%nat. split; [cbn; lia|reflexivity].
    + exists 3%nat. split; [cbn; lia|reflexivity].
    + exists 4%nat. split; [cbn; lia|reflexivity].
    + exists 5%nat. split; [cbn; lia|reflexivity].
Qed.

Lemma log_time_then_lookup_witness :
  exists r w',
    run (log_time reference_host employee "PROJ-001" (PyStr "7.5")
           None None) busy_office = (Ok r, w') /\
    lookup_time_log (lt_time_log r) w'
      = Some (logged_entry reference_host employee busy_office "PROJ-001"
                (PyStr "7.5") None None) /\
    option_map logged_by (lookup_time_log (lt_time_log r) w')
      = Some (user employee) /\
    store_ok w'.
Proof.
  apply (log_time_then_lookup reference_host employee busy_office "PROJ-001"
           (PyStr "7.5") None None busy_office_ok).
  - discriminate.
  - reflexivity.
  - vm_compute. discriminate.
  - vm_compute. split; [reflexivity|discriminate].
Defined.

(** X3.  The order of the checks of [log_time], for a project that is
    named and hours in range: a caller who may not create Time Logs gets a
    [PermissionError] before any call reaches the database; a caller who may
    gets a [ValidationError] naming the project when it does not exist, the
    existence test being the only call made. *)
Theorem log_time_refusals (host : Host) (sess : session) (w : world)
  (project_arg : string) (hours_arg : pyval)
  (description_arg : option string) (log_date_arg : option date) :
  project_arg <> "" ->
  0 < flt host hours_arg <= 24 ->
  (has_permission sess "Time Log" "create" None = false ->
   run (log_time host sess project_arg hours_arg description_arg
          log_date_arg) w
     = (Raised {| exc_kind := PermissionError;
                  exc_msg := "You don't have permission to create Time Logs" |},
        w)) /\
  (has_permission sess "Time Log" "create" None = true ->
   lookup_project project_arg w = None ->
   run (log_time host sess project_arg hours_arg description_arg
          log_date_arg) w
     = (Raised {| exc_kind := ValidationError;
                  exc_msg := "Project " ++ project_arg ++ " does not exist" |},
        with_call (CallExists "Project" project_arg) w)).
Proof.
  intros Hp [Hlo Hhi].
  apply truthy_str in Hp. apply Qleb_false in Hlo. apply Qltb_false in Hhi.
  unfold log_time. rewrite Hp, Hlo, Hhi. cbn [negb]. split.
  - intros Hperm. rewrite Hperm. reflexivity.
  - intros Hperm Hnone. rewrite Hperm. cbn [negb].
    unfold_request. unfold with_call, record_call, lookup_project in *.
    cbn -[String.append]. rewrite Hnone. reflexivity.
Qed.

Lemma log_time_refusals_witness :
  run (log_time reference_host guest_user "PROJ-001" (PyInt 2) None None)
      busy_office
    = (Raised {| exc_kind := PermissionError;
                 exc_msg := "You don't have permission to create Time Logs" |},
       busy_office) /\
  run (log_time reference_host employee "PROJ-404" (PyInt 2) None None)
      busy_office
    = (Raised {| exc_kind := ValidationError;
                 exc_msg := "Project PROJ-404 does not exist" |},
       with_call (CallExists "Project" "PROJ-404") busy_office).
Proof.
  split.
  - apply (proj1 (log_time_refusals reference_host guest_user busy_office
                    "PROJ-001" (PyInt 2) None None
                    ltac:(discriminate)
                    ltac:(split; [reflexivity|discriminate]))).
    reflexivity.
  - apply (proj2 (log_time_refusals reference_host employee busy_office
                    "PROJ-404" (PyInt 2) None None
                    ltac:(discriminate)
                    ltac:(split; [reflexivity|discriminate]))); reflexivity.
Defined.

(** ** safe_update_hours *)

Lemma lookup_time_log_name (key : string) (w : world) (doc : TimeLog) :
  lookup_time_log key w = Some doc -> name doc = key /\ In doc (tabTimeLog w).
Proof.
  unfold lookup_time_log. intros H. apply find_some in H.
  destruct H as [Hin Hn]. apply String.eqb_eq in Hn. split; assumption.
Qed.

(** Every outcome of [safe_update_hours]. *)
Lemma safe_update_hours_run (host : Host) (sess : session) (w : world)
  (key : string) (new_hours_arg : pyval) :
  run (safe_update_hours host sess key new_hours_arg) w =
    let w1 := with_call (CallGetDoc "Time Log" key) w in
    match lookup_time_log key w with
    | None =>
        (Raised {| exc_kind := ValidationError;
                   exc_msg := "Time Log " ++ key ++ " not found" |}, w1)
    | Some doc =>
        if has_permission sess "Time Log" "write" (Some (name doc))
        then (Ok {| up_success := true;
                    up_time_log := key;
                    up_old_hours := hours doc;
                    up_new_hours := flt host new_hours_arg |},
              with_call CallCommit
                (saved (with_hours doc (flt host new_hours_arg)) w1))
        else (Raised {| exc_kind := PermissionError;
                        exc_msg :=
                          if (logged_by doc =? user sess)%string
                          then "Insufficient Permission for Time Log"
                          else "You can only edit your own time logs" |},
              w1)
    end.
Proof.
  unfold safe_update_hours, get_doc, save, update_project_billing.
  unfold_request. unfold with_call, record_call, lookup_time_log, saved,
    with_hours.
  cbn -[flt String.append].
  destruct (find _ (tabTimeLog w)) as [doc|]; [|reflexivity].
  cbn -[flt String.append].
  destruct (logged_by doc =? user sess)%string; cbn -[flt String.append];
    destruct (has_permission sess "Time Log" "write" (Some (name doc)));
    reflexivity.
Qed.


Lemma unique_name_eq (l : list TimeLog) (a b : TimeLog) :
  NoDup (map name l) -> In a l -> In b l -> name a = name b -> a = b.
Proof.
  induction l as [|t l IH]; intros Hnd Ha Hb E; [destruct Ha|].
  cbn [map] in Hnd. apply NoDup_cons_iff in Hnd. destruct Hnd as [Ht Hnd].
  destruct Ha as [<-|Ha], Hb as [<-|Hb].
  - reflexivity.
  - exfalso. apply Ht. rewrite E. apply in_map. exact Hb.
  - exfalso. apply Ht. rewrite <- E. apply in_map. exact Ha.
  - apply IH; assumption.
Qed.

Lemma replace_by_name (l : list TimeLog) (doc : TimeLog) (q : Q) :
  NoDup (map name l) -> In doc l ->
  map (fun t => if (name t =? name (with_hours doc q))%string
                then with_hours doc q else t) l
  = map (fun t => if (name t =? name doc)%string
                  then with_hours t q else t) l.
Proof.
  intros Hu Hin. apply map_ext_in. intros t Ht. cbn [with_hours name].
  destruct (String.eqb_spec (name t) (name doc)) as [E|_]; [|reflexivity].
  rewrite (unique_name_eq l t doc Hu Ht Hin E). reflexivity.
Qed.

Lemma find_after_update (l : list TimeLog) (doc : TimeLog) (q : Q) :
  find (fun t => (name t =? name doc)%string) l = Some doc ->
  find (fun t => (name t =? name doc)%string)
       (map (fun t => if (name t =? name doc)%string
                      then with_hours t q else t) l)
  = Some (with_hours doc q).
Proof.
  induction l as [|t l IH]; intros L; [discriminate|].
  cbn [map find] in *.
  destruct (String.eqb_spec (name t) (name doc)) as [E|E].
  - injection L as ->. cbn [with_hours name]. rewrite String.eqb_refl.
    reflexivity.
  - destruct (String.eqb_spec (name t) (name doc)); [contradiction|].
    apply IH. exact L.
Qed.

(** X5.  What a successful [safe_update_hours] changes, in a store with
    unique names: the hours of the named Time Log become the coerced new
    value, with no test of its range, and the reply carries the hours it
    had; every other field of it and every other Time Log stay as they
    were, and so do the projects and the series. *)
Theorem safe_update_hours_effect (host : Host) (sess : session) (w : world)
  (key : string) (new_hours_arg : pyval) (doc : TimeLog) :
  names_unique w ->
  lookup_time_log key w = Some doc ->
  has_permission sess "Time Log" "write" (Some key) = true ->
  exists r w',
    run (safe_update_hours host sess key new_hours_arg) w = (Ok r, w') /\
    up_old_hours r = hours doc /\
    up_new_hours r = flt host new_hours_arg /\
    tabTimeLog w'
      = map (fun t => if (name t =? key)%string
                      then with_hours t (flt host new_hours_arg)
                      else t) (tabTimeLog w) /\
    lookup_time_log key w'
      = Some (with_hours doc (flt host new_hours_arg)) /\
    tabProject w' = tabProject w /\
    naming_series w' = naming_series w.
Proof.
  intros Hu L P.
  destruct (lookup_time_log_name key w doc L) as [Hn Hin]. subst key.
  rewrite safe_update_hours_run. cbv zeta. rewrite L, P.
  eexists. eexists. split; [reflexivity|].
  cbn [up_old_hours up_new_hours]. split; [reflexivity|].
  split; [reflexivity|].
  unfold lookup_time_log in *.
  cbn [with_call record_call snd saved tabTimeLog tabProject naming_series].
  rewrite (replace_by_name (tabTimeLog w) doc (flt host new_hours_arg) Hu Hin).
  split; [reflexivity|]. split; [|split; reflexivity].
  apply find_after_update. exact L.
Qed.

Lemma safe_update_hours_effect_witness :
  exists r w',
    run (safe_update_hours reference_host employee "TL-5" (PyStr "6.5"))
        busy_office = (Ok r, w') /\
    up_old_hours r = hours (time_log_row "TL-5" "PROJ-002" 1 5
                              "ali@example.com" 0) /\
    up_new_hours r = flt reference_host (PyStr "6.5") /\
    tabTimeLog w'
      = map (fun t => if (name t =? "TL-5")%string
                      then with_hours t (flt reference_host (PyStr "6.5"))
                      else t) (tabTimeLog busy_office) /\
    lookup_time_log "TL-5" w'
      = Some (with_hours (time_log_row "TL-5" "PROJ-002" 1 5
                            "ali@example.com" 0)
                (flt reference_host (PyStr "6.5"))) /\
    tabProject w' = tabProject busy_office /\
    naming_series w' = naming_series busy_office.
Proof.
  apply (safe_update_hours_effect reference_host employee busy_office "TL-5"
           (PyStr "6.5")).
  - apply busy_office_ok.
  - reflexivity.
  - reflexivity.
Defined.

(** X6.  How [safe_update_hours] refuses.  A Time Log that does not exist
    gives a [ValidationError] that names it, not the [DoesNotExistError]
    of the lookup; a caller without write permission on the Time Log gets a
    [PermissionError], which the handlers let through.  Either way nothing
    is saved or committed and the data is as before. *)
Theorem safe_update_hours_refusals (host : Host) (sess : session) (w : world)
  (key : string) (new_hours_arg : pyval) :
  (lookup_time_log key w = None ->
   run (safe_update_hours host sess key new_hours_arg) w
     = (Raised {| exc_kind := ValidationError;
                  exc_msg := "Time Log " ++ key ++ " not found" |},
        with_call (CallGetDoc "Time Log" key) w)) /\
  (forall doc,
     lookup_time_log key w = Some doc ->
     has_permission sess "Time Log" "write" (Some key) = false ->
     exists msg,
       run (safe_update_hours host sess key new_hours_arg) w
         = (Raised {| exc_kind := PermissionError; exc_msg := msg |},
            with_call (CallGetDoc "Time Log" key) w)) /\
  same_data w (with_call (CallGetDoc "Time Log" key) w) /\
  filter is_write (db_calls (with_call (CallGetDoc "Time Log" key) w))
    = filter is_write (db_calls w).
Proof.
  rewrite safe_update_hours_run. cbv zeta. split; [|split; [|split]].
  - intros ->. reflexivity.
  - intros doc L P. rewrite L.
    destruct (lookup_time_log_name key w doc L) as [Hn _].
    rewrite Hn, P. eexists. reflexivity.
  - repeat split; reflexivity.
  - reflexivity.
Qed.

Lemma safe_update_hours_refusals_witness :
  run (safe_update_hours reference_host employee "TL-99" (PyInt 3)) busy_office
    = (Raised {| exc_kind := ValidationError;
                 exc_msg := "Time Log TL-99 not found" |},
       with_call (CallGetDoc "Time Log" "TL-99") busy_office) /\
  exists msg,
    run (safe_update_hours reference_host guest_user "TL-1" (PyInt 3))
        busy_office
      = (Raised {| exc_kind := PermissionError; exc_msg := msg |},
         with_call (CallGetDoc "Time Log" "TL-1") busy_office).
Proof.
  split.
  - apply (proj1 (safe_update_hours_refusals reference_host employee
                    busy_office "TL-99" (PyInt 3))).
    reflexivity.
  - apply (proj1 (proj2 (safe_update_hours_refusals reference_host guest_user
                           busy_office "TL-1" (PyInt 3)))
             (time_log_row "TL-1" "PROJ-001" 2 10 "ali@example.com" 0));
      reflexivity.
Defined.

Lemma with_hours_back (doc : TimeLog) (q : Q) :
  with_hours (with_hours doc q) (hours doc) = doc.
Proof. destruct doc. reflexivity. Qed.

(** X7.  Updating the hours and then writing the old hours back restores
    the Time Log table, in a store with unique names. *)
Theorem safe_update_hours_round_trip (host : Host) (sess : session)
  (w : world) (key : string) (new_hours_arg : pyval) (doc : TimeLog) :
  names_unique w ->
  lookup_time_log key w = Some doc ->
  has_permission sess "Time Log" "write" (Some key) = true ->
  exists r1 w1 r2 w2,
    run (safe_update_hours host sess key new_hours_arg) w = (Ok r1, w1) /\
    run (safe_update_hours host sess key (PyFloat (up_old_hours r1))) w1
      = (Ok r2, w2) /\
    up_old_hours r2 = flt host new_hours_arg /\
    tabTimeLog w2 = tabTimeLog w.
Proof.
  intros Hu L P.
  destruct (lookup_time_log_name key w doc L) as [Hn Hin]. subst key.
  set (q := flt host new_hours_arg).
  rewrite safe_update_hours_run. cbv zeta. rewrite L, P. fold q.
  set (w1 := with_call CallCommit
               (saved (with_hours doc q)
                  (with_call (CallGetDoc "Time Log" (name doc)) w))).
  assert (T1 : tabTimeLog w1
               = map (fun t => if (name t =? name doc)%string
                               then with_hours t q else t) (tabTimeLog w)).
  { unfold w1.
    cbn [with_call record_call snd saved tabTimeLog].
    apply replace_by_name; assumption. }
  assert (L1 : lookup_time_log (name doc) w1 = Some (with_hours doc q)).
  { unfold lookup_time_log in *. rewrite T1.
    apply find_after_update. exact L. }
  eexists. exists w1. cbn [up_old_hours].
  rewrite safe_update_hours_run. cbv zeta. rewrite L1.
  cbn [with_hours name]. rewrite P.
  eexists. eexists. split; [reflexivity|]. split; [reflexivity|].
  cbn [up_old_hours hours flt]. split; [reflexivity|].
  cbn [with_call record_call snd saved tabTimeLog name]. rewrite T1.
  rewrite map_map. rewrite <- (map_id (tabTimeLog w)) at 2.
  apply map_ext_in. intros t Ht. cbn [with_hours name].
  destruct (String.eqb_spec (name t) (name doc)) as [E|E]; cbn [name].
  - rewrite (unique_name_eq (tabTimeLog w) t doc Hu Ht Hin E).
    change (name (with_hours doc q)) with (name doc).
    rewrite String.eqb_refl. apply with_hours_back.
  - destruct (String.eqb_spec (name t) (name doc)); [contradiction|].
    reflexivity.
Qed.

Lemma safe_update_hours_round_trip_witness :
  exists r1 w1 r2 w2,
    run (safe_update_hours reference_host employee "TL-1" (PyStr "100"))
        busy_office = (Ok r1, w1) /\
    run (safe_update_hours reference_host employee "TL-1"
           (PyFloat (up_old_hours r1))) w1 = (Ok r2, w2) /\
    up_old_hours r2 = flt reference_host (PyStr "100") /\
    tabTimeLog w2 = tabTimeLog busy_office.
Proof.
  apply (safe_update_hours_round_trip reference_host employee busy_office
           "TL-1" (PyStr "100")
           (time_log_row "TL-1" "PROJ-001" 2 10 "ali@example.com" 0)).
  - apply busy_office_ok.
  - reflexivity.
  - reflexivity.
Defined.

(** ** The reports write nothing *)

Lemma get_project_summary_reads (host : Host) (sess : session) (w w' : world)
  (project_arg : string) (o : outcome project_summary) :
  run (get_project_summary host sess project_arg) w = (o, w') ->
  same_data w w' /\
  filter is_write (db_calls w') = filter is_write (db_calls w).
Proof.
  unfold get_project_summary, db_get_list, same_data.
  unfold_request. unfold lookup_project.
  cbn -[firstn sum_hours flt length String.append].
  destruct (option_map snd (find _ (tabProject w)));
    cbn -[firstn sum_hours flt length String.append].
  - destruct (has_permission sess "Time Log" "read" None);
      cbn -[firstn sum_hours flt length String.append];
      intros [= <- <-]; repeat split; reflexivity.
  - intros [= <- <-]. repeat split; reflexivity.
Qed.

Lemma get_all_employees_hours_reads (host : Host) (sess : session)
  (w w' : world) (month_arg year_arg : pyval)
  (o : outcome employees_hours_report) :
  run (get_all_employees_hours host sess month_arg year_arg) w = (o, w') ->
  same_data w w' /\
  filter is_write (db_calls w') = filter is_write (db_calls w).
Proof.
  unfold get_all_employees_hours, only_for, sql_employee_hours, same_data.
  unfold_request.
  destruct (holds_role sess _); intros [= <- <-]; repeat split; reflexivity.
Qed.

Lemma generate_invoice_reads (host : Host) (sess : session) (w w' : world)
  (project_arg : string) (month_arg year_arg : pyval) (o : outcome invoice) :
  run (generate_invoice host sess project_arg month_arg year_arg) w
    = (o, w') ->
  same_data w w' /\
  filter is_write (db_calls w') = filter is_write (db_calls w).
Proof.
  unfold generate_invoice, only_for, sql_invoice_logs, same_data.
  unfold_request. unfold lookup_project.
  destruct (int host (py_or month_arg _));
    [|intros [= <- <-]; repeat split; reflexivity].
  destruct (int host (py_or year_arg _));
    [|intros [= <- <-]; repeat split; reflexivity].
  destruct (holds_role sess _);
    [|intros [= <- <-]; repeat split; reflexivity].
  cbn -[sum_hours flt str_of_Z String.append].
  destruct (option_map snd (find _ (tabProject w)));
    cbn -[sum_hours flt str_of_Z String.append];
    [|intros [= <- <-]; repeat split; reflexivity].
  destruct (Qeq_bool _ 0); cbn -[sum_hours flt str_of_Z String.append];
    [intros [= <- <-]; repeat split; reflexivity|].
  destruct (map row_of _); intros [= <- <-]; repeat split; reflexivity.
Qed.

(** X8.  The three reports only read.  Whatever [get_project_summary],
    [get_all_employees_hours] and [generate_invoice] return or raise, both
    tables, the naming series and the response are as before the call, and
    no insert, save or commit has been made. *)
Theorem reports_write_nothing (host : Host) (sess : session) (w : world)
  (project_arg : string) (month_arg year_arg : pyval) :
  (forall o w',
     run (get_project_summary host sess project_arg) w = (o, w') ->
     same_data w w' /\
     filter is_write (db_calls w') = filter is_write (db_calls w)) /\
  (forall o w',
     run (get_all_employees_hours host sess month_arg year_arg) w = (o, w') ->
     same_data w w' /\
     filter is_write (db_calls w') = filter is_write (db_calls w)) /\
  (forall o w',
     run (generate_invoice host sess project_arg month_arg year_arg) w
       = (o, w') ->
     same_data w w' /\
     filter is_write (db_calls w') = filter is_write (db_calls w)).
Proof.
  split; [|split]; intros o w' Hrun.
  - exact (get_project_summary_reads host sess w w' project_arg o Hrun).
  - exact (get_all_employees_hours_reads host sess w w' month_arg year_arg
             o Hrun).
  - exact (generate_invoice_reads host sess w w' project_arg month_arg
             year_arg o Hrun).
Qed.

Lemma reports_write_nothing_witness :
  same_data busy_office
    (snd (run (generate_invoice reference_host manager "PROJ-001"
                 (PyInt 1) (PyInt 2024)) busy_office)) /\
  filter is_write
    (db_calls (snd (run (generate_invoice reference_host manager "PROJ-001"
                           (PyInt 1) (PyInt 2024)) busy_office)))
  = filter is_write (db_calls busy_office).
Proof.
  apply (proj2 (proj2 (reports_write_nothing reference_host manager
                         busy_office "PROJ-001" (PyInt 1) (PyInt 2024)))
           (fst (run (generate_invoice reference_host manager "PROJ-001"
                        (PyInt 1) (PyInt 2024)) busy_office))).
  reflexivity.
Defined.

(** ** Dates in order *)

Lemma date_leb_iff (a b : date) :
  date_leb a b = true <->
  (year a < year b \/
   (year a = year b /\
    (month a < month b \/ (month a = month b /\ day a <= day b))))%Z.
Proof.
  unfold date_leb.
  rewrite !orb_true_iff, !andb_true_iff, !orb_true_iff, !andb_true_iff,
    !Z.ltb_lt, !Z.eqb_eq, Z.leb_le.
  tauto.
Qed.

Lemma date_leb_preorder : total_preorder date_leb.
Proof.
  split.
  - intros a b. rewrite !date_leb_iff. lia.
  - intros a b c. rewrite !date_leb_iff. lia.
Qed.


Lemma by_date_desc_preorder :
  total_preorder (fun a b : TimeLog => date_leb (log_date b) (log_date a)).
Proof.
  destruct date_leb_preorder as [Ht Hr]. split.
  - intros a b. apply Ht.
  - intros a b c Hab Hbc. exact (Hr _ _ _ Hbc Hab).
Qed.

Lemma sorted_app_before {A : Type} (R : A -> A -> Prop) (l1 l2 : list A) :
  StronglySorted R (l1 ++ l2) ->
  forall a b, In a l1 -> In b l2 -> R a b.
Proof.
  induction l1 as [|x l1 IH]; intros Hs a b Ha Hb; [destruct Ha|].
  cbn [app] in Hs. inversion Hs as [|x' l' Hs' Hall]; subst.
  destruct Ha as [<-|Ha].
  - rewrite Forall_forall in Hall. apply Hall. apply in_or_app. right.
    exact Hb.
  - exact (IH Hs' a b Ha Hb).
Qed.

Lemma sorted_app_left {A : Type} (R : A -> A -> Prop) (l1 l2 : list A) :
  StronglySorted R (l1 ++ l2) -> StronglySorted R l1.
Proof.
  induction l1 as [|x l1 IH]; intros Hs; [constructor|].
  cbn [app] in Hs. inversion Hs as [|x' l' Hs' Hall]; subst.
  constructor; [exact (IH Hs')|].
  apply Forall_app in Hall. apply Hall.
Qed.

(** ** get_project_summary: refusals, and the 100 latest entries *)

(** X9.  How [get_project_summary] refuses: a project that does not exist
    gives a [ValidationError] naming it, after the existence test alone; a
    caller who may not read Time Logs gets a [PermissionError] before any
    Time Log is fetched. *)
Theorem get_project_summary_refusals (host : Host) (sess : session)
  (w : world) (project_arg : string) :
  (lookup_project project_arg w = None ->
   run (get_project_summary host sess project_arg) w
     = (Raised {| exc_kind := ValidationError;
                  exc_msg := "Project not found: " ++ project_arg |},
        with_call (CallExists "Project" project_arg) w)) /\
  (lookup_project project_arg w <> None ->
   has_permission sess "Time Log" "read" None = false ->
   run (get_project_summary host sess project_arg) w
     = (Raised {| exc_kind := PermissionError;
                  exc_msg := "Insufficient Permission for Time Log" |},
        with_call (CallExists "Project" project_arg) w)).
Proof.
  unfold get_project_summary, db_get_list.
  unfold_request. unfold with_call, record_call, lookup_project.
  cbn -[firstn sum_hours flt length String.append]. split.
  - intros ->. reflexivity.
  - intros Hex Hread. rewrite Hread.
    destruct (option_map snd (find _ (tabProject w))); [|congruence].
    reflexivity.
Qed.

Lemma get_project_summary_refusals_witness :
  run (get_project_summary reference_host employee "PROJ-404") busy_office
    = (Raised {| exc_kind := ValidationError;
                 exc_msg := "Project not found: PROJ-404" |},
       with_call (CallExists "Project" "PROJ-404") busy_office) /\
  run (get_project_summary reference_host guest_user "PROJ-001") busy_office
    = (Raised {| exc_kind := PermissionError;
                 exc_msg := "Insufficient Permission for Time Log" |},
       with_call (CallExists "Project" "PROJ-001") busy_office).
Proof.
  split.
  - apply (proj1 (get_project_summary_refusals reference_host employee
                    busy_office "PROJ-404")).
    reflexivity.
  - apply (proj2 (get_project_summary_refusals reference_host guest_user
                    busy_office "PROJ-001")).
    + vm_compute. discriminate.
    + reflexivity.
Defined.

(** X10.  [get_project_summary] reports on at most 100 entries, the
    latest.  Its logs are the first 100 of the entries of the project (of
    any docstatus) in descending order of date: [log_count] is the smaller
    of 100 and the number of those entries, the logs come latest first,
    and no entry left out is dated after one that is reported. *)
Theorem get_project_summary_latest_100 (host : Host) (sess : session)
  (w : world) (project_arg : string) (pd : Project) :
  order_by_ok host ->
  lookup_project project_arg w = Some pd ->
  has_permission sess "Time Log" "read" None = true ->
  exists res w' ordered,
    run (get_project_summary host sess project_arg) w = (Ok res, w') /\
    Permutation ordered
      (filter (fun t => (project t =? project_arg)%string) (tabTimeLog w)) /\
    ps_logs res = map row_of (firstn 100 ordered) /\
    ps_log_count res
      = Nat.min 100
          (length (filter (fun t => (project t =? project_arg)%string)
                          (tabTimeLog w))) /\
    StronglySorted
      (fun a b => date_leb (log_date b) (log_date a) = true)
      (firstn 100 ordered) /\
    (forall a b,
       In a (firstn 100 ordered) -> In b (skipn 100 ordered) ->
       date_leb (log_date b) (log_date a) = true).
Proof.
  intros Hok Hex Hread.
  destruct (get_project_summary_ok host sess w project_arg pd Hex Hread)
    as (w' & Hrun & _).
  cbv zeta in Hrun.
  destruct (Hok TimeLog (fun a b => date_leb (log_date b) (log_date a))
              (filter (fun t => (project t =? project_arg)%string)
                      (tabTimeLog w))) as [Hperm Hsorted].
  specialize (Hsorted by_date_desc_preorder).
  set (ordered := sql_order_by host TimeLog
                    (fun a b => date_leb (log_date b) (log_date a))
                    (filter (fun t => (project t =? project_arg)%string)
                            (tabTimeLog w))) in *.
  eexists. exists w', ordered. split; [exact Hrun|].
  cbn [ps_logs ps_log_count].
  split; [exact Hperm|]. split; [reflexivity|].
  rewrite <- (firstn_skipn 100 ordered) in Hsorted.
  split; [|split].
  - rewrite length_map, length_firstn, (Permutation_length Hperm).
    reflexivity.
  - exact (sorted_app_left _ _ _ Hsorted).
  - exact (sorted_app_before _ _ _ Hsorted).
Qed.

Lemma get_project_summary_latest_100_witness :
  exists res w' ordered,
    run (get_project_summary reference_host employee "PROJ-001") busy_office
      = (Ok res, w') /\
    Permutation ordered
      (filter (fun t => (project t =? "PROJ-001")%string)
              (tabTimeLog busy_office)) /\
    ps_logs res = map row_of (firstn 100 ordered) /\
    ps_log_count res
      = Nat.min 100
          (length (filter (fun t => (project t =? "PROJ-001")%string)
                          (tabTimeLog busy_office))) /\
    StronglySorted
      (fun a b => date_leb (log_date b) (log_date a) = true)
      (firstn 100 ordered) /\
    (forall a b,
       In a (firstn 100 ordered) -> In b (skipn 100 ordered) ->
       date_leb (log_date b) (log_date a) = true).
Proof.
  apply (get_project_summary_latest_100 reference_host employee busy_office
           "PROJ-001"
           {| project_name := "Website"; billing_rate := PyFloat 10;
              customer := "ACME" |} reference_host_ok); reflexivity.
Defined.

(** ** get_all_employees_hours: nothing lost, nothing counted twice *)

Lemma add_to_groups_entries (t : TimeLog) (gs : list employee_hours) :
  entries_reported (add_to_groups t gs) = S (entries_reported gs).
Proof.
  induction gs as [|g gs IH]; cbn [add_to_groups].
  - reflexivity.
  - destruct (same_group t g); cbn [entries_reported fold_right eh_entries].
    + reflexivity.
    + fold (entries_reported (add_to_groups t gs)).
      fold (entries_reported gs). rewrite IH. lia.
Qed.

Lemma add_to_groups_hours (t : TimeLog) (gs : list employee_hours) :
  hours_reported (add_to_groups t gs) == hours_reported gs + hours t.
Proof.
  induction gs as [|g gs IH]; cbn [add_to_groups].
  - cbn. ring.
  - destruct (same_group t g);
      cbn [hours_reported fold_right eh_total_hours].
    + ring.
    + fold (hours_reported (add_to_groups t gs)).
      fold (hours_reported gs). rewrite IH. ring.
Qed.

Lemma fold_groups_counts (l : list TimeLog) (acc : list employee_hours) :
  entries_reported (fold_left (fun gs t => add_to_groups t gs) l acc)
    = (entries_reported acc + length l)%nat /\
  hours_reported (fold_left (fun gs t => add_to_groups t gs) l acc)
    == hours_reported acc + total_hours_of l.
Proof.
  revert acc. induction l as [|t l IH]; intros acc; cbn [fold_left].
  - split; [cbn; lia|cbn; ring].
  - destruct (IH (add_to_groups t acc)) as [He Hh]. split.
    + rewrite He, add_to_groups_entries. cbn [length]. lia.
    + rewrite Hh, add_to_groups_hours.
      cbn [total_hours_of fold_right]. fold (total_hours_of l). ring.
Qed.

Lemma reported_perm (l l' : list employee_hours) :
  Permutation l l' ->
  entries_reported l = entries_reported l' /\
  hours_reported l == hours_reported l'.
Proof.
  unfold entries_reported, hours_reported.
  induction 1 as [|x l l' _ [IHe IHh]|x y l|l l' l'' _ [IHe1 IHh1] _ [IHe2 IHh2]];
    cbn [fold_right].
  - split; reflexivity.
  - split; [rewrite IHe; reflexivity|rewrite IHh; reflexivity].
  - split; [lia|ring].
  - split; [congruence|rewrite IHh1; exact IHh2].
Qed.

(** X11.  The grouped report loses no entry and counts none twice: over
    its rows, the entry counts add up to the number of entries of the
    period that are not cancelled, and the total hours add up to the sum
    of their hours, however the database orders the rows. *)
Theorem employees_hours_add_up (host : Host) (sess : session) (w : world)
  (month_arg year_arg : pyval) :
  order_by_ok host ->
  holds_role sess report_roles = true ->
  let month_v := py_or month_arg (PyInt (month (today sess))) in
  let year_v := py_or year_arg (PyInt (year (today sess))) in
  let rows := filter (in_report_period host month_v year_v) (tabTimeLog w) in
  exists rep w',
    run (get_all_employees_hours host sess month_arg year_arg) w
      = (Ok rep, w') /\
    entries_reported (er_data rep) = length rows /\
    hours_reported (er_data rep) == total_hours_of rows.
Proof.
  intros Hok Hrole month_v year_v rows.
  rewrite (get_all_employees_hours_ok host sess w month_arg year_arg Hrole).
  eexists. eexists. split; [reflexivity|]. cbn [er_data].
  fold month_v year_v rows.
  destruct (Hok employee_hours total_hours_desc
              (group_by_employee_project rows)) as [Hperm _].
  destruct (reported_perm _ _ Hperm) as [He Hh].
  destruct (fold_groups_counts rows []) as [Fe Fh].
  unfold group_by_employee_project in *.
  split.
  - rewrite He, Fe. reflexivity.
  - rewrite Hh, Fh. cbn [hours_reported fold_right]. ring.
Qed.

Lemma employees_hours_add_up_witness :
  exists rep w',
    run (get_all_employees_hours reference_host manager PyNone PyNone)
        report_office = (Ok rep, w') /\
    entries_reported (er_data rep)
      = length (filter (in_report_period reference_host
                          (PyInt 1) (PyInt 2024))
                       (tabTimeLog report_office)) /\
    hours_reported (er_data rep)
      == total_hours_of
           (filter (in_report_period reference_host (PyInt 1) (PyInt 2024))
                   (tabTimeLog report_office)).
Proof.
  apply (employees_hours_add_up reference_host manager report_office
           PyNone PyNone reference_host_ok).
  reflexivity.
Defined.

(** ** bulk_log_time, item by item *)

Lemma item_failure_valid (host : Host) (sess : session) (idx : nat)
  (it : log_item) :
  item_failure host sess idx it = None <-> valid_item host sess it = true.
Proof.
  unfold item_failure, valid_item.
  destruct (item_project it) as [p|]; [|split; discriminate].
  destruct (truthy (PyStr p)); cbn [negb andb]; [|split; discriminate].
  destruct (Qleb (flt host (item_hours it)) 0); cbn [negb andb];
    [split; discriminate|].
  destruct (has_permission sess "Time Log" "create" None); cbn [negb andb];
    [|split; discriminate].
  destruct (Qltb 24 (flt host (item_hours it))); cbn [negb];
    split; congruence.
Qed.

Lemma bulk_log_one_failure (host : Host) (sess : session) (w : world)
  (idx : nat) (it : log_item) (msg : string) :
  item_failure host sess idx it = Some msg ->
  exists kind,
    run (bulk_log_one host sess idx it) w
      = (Raised {| exc_kind := kind; exc_msg := msg |}, w).
Proof.
  unfold item_failure, bulk_log_one.
  destruct (item_project it) as [p|];
    [|intros [= <-]; eexists; reflexivity].
  destruct (truthy (PyStr p)); cbn [negb];
    [|intros [= <-]; eexists; reflexivity].
  destruct (Qleb (flt host (item_hours it)) 0);
    [intros [= <-]; eexists; reflexivity|].
  unfold insert, validate_time_log.
  destruct (has_permission sess "Time Log" "create" None); cbn [negb];
    [|intros [= <-]; eexists; reflexivity].
  cbn [hours]. destruct (Qltb 24 (flt host (item_hours it)));
    [intros [= <-]; eexists; reflexivity|discriminate].
Qed.

(** The loop, in full: the names created, the errors with their messages
    and the store it leaves. *)
Lemma bulk_loop_full (host : Host) (sess : session) (items : list log_item) :
  forall (idx : nat) (created_acc : list string)
         (errors_acc : list bulk_error) (w : world),
    run (bulk_loop host sess idx items created_acc errors_acc) w
    = (Ok ((created_acc
            ++ map name (batch_entries host sess (naming_series w) items))%list,
           (errors_acc ++ bulk_errors host sess idx items)%list),
       batch_inserted (batch_entries host sess (naming_series w) items) w).
Proof.
  induction items as [|it rest IH]; intros idx cacc eacc w.
  - cbn. rewrite !app_nil_r. reflexivity.
  - cbn [bulk_loop bulk_errors batch_entries].
    unfold run, bind, try_except, ret in *.
    destruct (item_failure host sess idx it) as [msg|] eqn:F.
    + assert (V : valid_item host sess it = false).
      { destruct (valid_item host sess it) eqn:V; [|reflexivity].
        apply item_failure_valid with (idx := idx) in V. congruence. }
      destruct (bulk_log_one_failure host sess w idx it msg F) as [kind E].
      unfold run in E. rewrite E, V. cbn [exc_msg].
      rewrite IH, <- app_assoc. reflexivity.
    + apply item_failure_valid in F.
      pose proof (bulk_log_one_valid host sess w idx it F) as E.
      unfold run in E. rewrite E, F.
      rewrite IH. cbn [inserted naming_series map batch_inserted fold_left].
      rewrite <- app_assoc. reflexivity.
Qed.

Lemma batch_entries_names (host : Host) (sess : session)
  (items : list log_item) (n : nat) :
  map name (batch_entries host sess n items)
  = map autoname (seq (S n) (count_valid host sess items)).
Proof.
  revert n. unfold count_valid.
  induction items as [|it rest IH]; intros n; cbn [batch_entries filter].
  - reflexivity.
  - destruct (valid_item host sess it); [|apply IH].
    cbn [map length seq item_entry name]. rewrite IH. reflexivity.
Qed.

Lemma batch_inserted_calls (entries : list TimeLog) (w : world) :
  db_calls (batch_inserted entries w)
    = (rev (map (fun e => CallInsert "Time Log" (name e)) entries)
       ++ db_calls w)%list /\
  tabTimeLog (batch_inserted entries w) = (tabTimeLog w ++ entries)%list /\
  tabProject (batch_inserted entries w) = tabProject w /\
  naming_series (batch_inserted entries w)
    = (naming_series w + length entries)%nat /\
  response (batch_inserted entries w) = response w.
Proof.
  unfold batch_inserted. revert w.
  induction entries as [|e entries IH]; intros w; cbn [fold_left].
  - cbn. rewrite app_nil_r, Nat.add_0_r. repeat split; reflexivity.
  - destruct (IH (inserted e w)) as (Hc & Ht & Hp & Hs & Hr).
    rewrite Hc, Ht, Hp, Hs, Hr.
    cbn [inserted db_calls tabTimeLog tabProject naming_series response
         map rev length].
    rewrite <- !app_assoc. cbn [app].
    repeat split; try reflexivity. lia.
Qed.

(** X12.  [bulk_log_time] on a list, in full.  The names it returns are
    the next names of the series, one per valid item and in the order of
    the items; the errors are those of the invalid items, each under its
    position and with the message of its failure; the inserts are followed
    by one commit, the last call made. *)
Theorem bulk_log_time_result (host : Host) (sess : session) (w : world)
  (items : list log_item) :
  exists res w',
    run (bulk_log_time host sess (Some items)) w = (Ok res, w') /\
    created res
      = map autoname (seq (S (naming_series w))
                          (count_valid host sess items)) /\
    created_count res = count_valid host sess items /\
    errors res = bulk_errors host sess 0 items /\
    error_count res = length (bulk_errors host sess 0 items) /\
    tabTimeLog w'
      = (tabTimeLog w
         ++ batch_entries host sess (naming_series w) items)%list /\
    db_calls w'
      = (CallCommit
         :: rev (map (CallInsert "Time Log") (created res))
         ++ db_calls w)%list.
Proof.
  unfold bulk_log_time, run, bind, db_commit, record_call, ret.
  pose proof (bulk_loop_full host sess items 0%nat [] [] w) as E.
  unfold run in E. rewrite E. cbn [app fst snd].
  destruct (batch_inserted_calls
              (batch_entries host sess (naming_series w) items) w)
    as (Hc & Ht & _).
  eexists. eexists. split; [reflexivity|].
  cbn [created created_count errors error_count tabTimeLog db_calls].
  rewrite batch_entries_names.
  split; [reflexivity|].
  split; [rewrite length_map, length_seq; reflexivity|].
  split; [reflexivity|]. split; [reflexivity|].
  split; [exact Ht|].
  rewrite Hc, <- batch_entries_names, map_map. reflexivity.
Qed.

Lemma in_bulk_errors (host : Host) (sess : session) (items : list log_item) :
  forall (idx i : nat) (it : log_item) (msg : string),
    nth_error items i = Some it ->
    item_failure host sess (idx + i) it = Some msg ->
    In {| index := (idx + i)%nat; error := msg |}
       (bulk_errors host sess idx items).
Proof.
  induction items as [|it0 rest IH]; intros idx i it msg Hi Hf.
  - destruct i; discriminate.
  - cbn [bulk_errors]. destruct i as [|i].
    + injection Hi as ->. rewrite Nat.add_0_r in *. rewrite Hf.
      left. reflexivity.
    + cbn [nth_error] in Hi.
      replace (idx + S i)%nat with (S idx + i)%nat in * by lia.
      specialize (IH (S idx) i it msg Hi Hf).
      destruct (item_failure host sess idx it0); [right|]; exact IH.
Qed.

(** X13.  The index of an error counts from 0 and its message from 1: an
    item at position [i] without a project leaves the error with index [i]
    and the message "Item i+1: project is required", and an item whose
    hours do not coerce to a positive number the error with index [i] and
    the message "Item i+1: hours must be > 0". *)
Theorem bulk_log_time_error_numbering (host : Host) (sess : session)
  (w : world) (items : list log_item) (i : nat) (it : log_item) :
  nth_error items i = Some it ->
  exists res w',
    run (bulk_log_time host sess (Some items)) w = (Ok res, w') /\
    (item_project it = None \/ item_project it = Some "" ->
     In {| index := i;
           error := "Item " ++ str_of_nat (i + 1) ++ ": project is required" |}
        (errors res)) /\
    (forall p, item_project it = Some p -> p <> "" ->
     flt host (item_hours it) <= 0 ->
     In {| index := i;
           error := "Item " ++ str_of_nat (i + 1) ++ ": hours must be > 0" |}
        (errors res)).
Proof.
  intros Hi.
  unfold bulk_log_time, run, bind, db_commit, record_call, ret.
  pose proof (bulk_loop_full host sess items 0%nat [] [] w) as E.
  unfold run in E. rewrite E. cbn [app fst snd].
  eexists. eexists. split; [reflexivity|]. cbn [errors].
  split.
  - intros Hp.
    apply (in_bulk_errors host sess items 0%nat i it _ Hi).
    unfold item_failure. cbn [Nat.add].
    destruct Hp as [-> | ->]; reflexivity.
  - intros p Hp Hne Hle.
    apply (in_bulk_errors host sess items 0%nat i it _ Hi).
    unfold item_failure. cbn [Nat.add]. rewrite Hp.
    apply truthy_str in Hne. rewrite Hne. cbn [negb].
    apply Qleb_true in Hle. rewrite Hle. reflexivity.
Qed.

Lemma bulk_log_time_error_numbering_witness :
  exists res w',
    run (bulk_log_time reference_host employee (Some sample_batch)) office
      = (Ok res, w') /\
    In {| index := 1; error := "Item 2: hours must be > 0" |} (errors res).
Proof.
  destruct (bulk_log_time_error_numbering reference_host employee office
              sample_batch 1%nat
              {| item_project := Some "PROJ-002"; item_hours := PyStr "abc";
                 item_description := None; item_log_date := None |}
              eq_refl) as (res & w' & Hrun & _ & Hhours).
  exists res, w'. split; [exact Hrun|].
  apply (Hhours "PROJ-002"); [reflexivity|discriminate|].
  vm_compute. discriminate.
Defined.

Lemma bulk_errors_positions (host : Host) (sess : session)
  (items : list log_item) (idx : nat) :
  map index (bulk_errors host sess idx items)
  = invalid_positions host sess idx items.
Proof.
  revert idx. induction items as [|it rest IH]; intros idx;
    cbn [bulk_errors invalid_positions].
  - reflexivity.
  - destruct (item_failure host sess idx it) as [msg|] eqn:F.
    + assert (V : valid_item host sess it = false).
      { destruct (valid_item host sess it) eqn:V; [|reflexivity].
        apply item_failure_valid with (idx := idx) in V. congruence. }
      rewrite V. cbn [map index]. rewrite IH. reflexivity.
    + apply item_failure_valid in F. rewrite F. apply IH.
Qed.

Lemma no_permission_no_valid (host : Host) (sess : session)
  (items : list log_item) (n : nat) :
  has_permission sess "Time Log" "create" None = false ->
  count_valid host sess items = 0%nat /\
  batch_entries host sess n items = [].
Proof.
  intros Hperm. unfold count_valid.
  induction items as [|it rest [IHc IHb]]; cbn [filter batch_entries].
  - split; reflexivity.
  - assert (V : valid_item host sess it = false).
    { unfold valid_item. destruct (item_project it); [|reflexivity].
      rewrite Hperm, andb_false_r. reflexivity. }
    rewrite V. split; assumption.
Qed.

(** X14.  A caller who may not create Time Logs gets no [PermissionError]
    from [bulk_log_time]: the call returns, with nothing created, one error
    per item, the Time Log table as before and the commit as the only call
    made. *)
Theorem bulk_log_time_without_permission (host : Host) (sess : session)
  (w : world) (items : list log_item) :
  has_permission sess "Time Log" "create" None = false ->
  exists res w',
    run (bulk_log_time host sess (Some items)) w = (Ok res, w') /\
    created res = [] /\
    error_count res = length items /\
    map index (errors res) = seq 0 (length items) /\
    tabTimeLog w' = tabTimeLog w /\
    db_calls w' = CallCommit :: db_calls w.
Proof.
  intros Hperm.
  unfold bulk_log_time, run, bind, db_commit, record_call, ret.
  pose proof (bulk_loop_full host sess items 0%nat [] [] w) as E.
  unfold run in E. rewrite E. cbn [app fst snd].
  destruct (no_permission_no_valid host sess items (naming_series w) Hperm)
    as [Hc Hb].
  rewrite Hb. cbn [map batch_inserted fold_left].
  eexists. eexists. split; [reflexivity|].
  cbn [created error_count errors tabTimeLog db_calls].
  assert (Hpos : map index (bulk_errors host sess 0 items)
                 = seq 0 (length items)).
  { rewrite bulk_errors_positions. clear E Hc Hb.
    generalize 0%nat. induction items as [|it rest IH]; intros idx;
      cbn [invalid_positions length seq]; [reflexivity|].
    assert (V : valid_item host sess it = false).
    { unfold valid_item. destruct (item_project it); [|reflexivity].
      rewrite Hperm, andb_false_r. reflexivity. }
    rewrite V, IH. reflexivity. }
  split; [reflexivity|].
  split; [rewrite <- (length_map index), Hpos, length_seq; reflexivity|].
  split; [exact Hpos|]. split; reflexivity.
Qed.

Lemma bulk_log_time_without_permission_witness :
  exists res w',
    run (bulk_log_time reference_host guest_user (Some sample_batch))
        busy_office = (Ok res, w') /\
    created res = [] /\
    error_count res = length sample_batch /\
    map index (errors res) = seq 0 (length sample_batch) /\
    tabTimeLog w' = tabTimeLog busy_office /\
    db_calls w' = CallCommit :: db_calls busy_office.
Proof.
  apply (bulk_log_time_without_permission reference_host guest_user
           busy_office sample_batch).
  reflexivity.
Defined.

Lemma batch_entries_author (host : Host) (sess : session)
  (items : list log_item) (n : nat) (e : TimeLog) :
  In e (batch_entries host sess n items) ->
  logged_by e = user sess /\ docstatus e = 0%Z.
Proof.
  revert n. induction items as [|it rest IH]; intros n; cbn [batch_entries].
  - intros [].
  - destruct (valid_item host sess it); [|apply IH].
    intros [<-|Hin]; [split; reflexivity|exact (IH _ Hin)].
Qed.

Lemma autoname_seq_nodup (start len : nat) :
  NoDup (map autoname (seq start len)).
Proof.
  revert start. induction len as [|len IH]; intros start; cbn [seq map].
  - constructor.
  - constructor; [|apply IH].
    intros Hin. apply in_map_iff in Hin. destruct Hin as (k & Hk & Hin).
    apply autoname_inj in Hk. subst k. apply in_seq in Hin. lia.
Qed.

Lemma store_ok_batch (w w' : world) (es : list TimeLog) (cnt : nat) :
  store_ok w ->
  map name es = map autoname (seq (S (naming_series w)) cnt) ->
  tabTimeLog w' = (tabTimeLog w ++ es)%list ->
  naming_series w' = (naming_series w + cnt)%nat ->
  store_ok w'.
Proof.
  intros [Hu Hi] Hnames Htab Hser. split.
  - unfold names_unique in *. rewrite Htab, map_app, Hnames.
    apply NoDup_app; [exact Hu|apply autoname_seq_nodup|].
    intros k Hold Hnew.
    apply in_map_iff in Hold. destruct Hold as (t & Hn & Ht).
    destruct (Hi t Ht) as (j & Hj & Hname).
    apply in_map_iff in Hnew. destruct Hnew as (j' & Hn' & Hj').
    apply in_seq in Hj'.
    rewrite Hname, <- Hn' in Hn. apply autoname_inj in Hn. lia.
  - intros t Ht. rewrite Htab in Ht. apply in_app_or in Ht.
    destruct Ht as [Ht|Ht].
    + destruct (Hi t Ht) as (j & Hj & Hn). exists j. split; [lia|exact Hn].
    + apply (in_map name) in Ht. rewrite Hnames in Ht.
      apply in_map_iff in Ht. destruct Ht as (j & Hn & Hj).
      apply in_seq in Hj. exists j. split; [lia|symmetry; exact Hn].
Qed.

Lemma find_by_unique_name (l : list TimeLog) (e : TimeLog) :
  NoDup (map name l) -> In e l ->
  find (fun t => (name t =? name e)%string) l = Some e.
Proof.
  intros Hu Hin.
  destruct (find (fun t => (name t =? name e)%string) l) as [t|] eqn:F.
  - apply find_some in F. destruct F as [Ht Hn].
    apply String.eqb_eq in Hn.
    rewrite (unique_name_eq l t e Hu Ht Hin Hn). reflexivity.
  - exfalso. pose proof (find_none _ _ F e Hin) as Hn. cbn in Hn.
    rewrite String.eqb_refl in Hn. discriminate.
Qed.

(** X15.  The names [bulk_log_time] returns are fresh and find the entries
    it created.  In a store whose names are unique and issued by the
    series, the names returned are pairwise distinct, each one finds in the
    new store a draft Time Log under that name with the caller as author,
    and the names of the new store are again unique and issued. *)
Theorem bulk_log_time_names (host : Host) (sess : session) (w : world)
  (items : list log_item) :
  store_ok w ->
  exists res w',
    run (bulk_log_time host sess (Some items)) w = (Ok res, w') /\
    NoDup (created res) /\
    (forall key, In key (created res) ->
       ~ In key (map name (tabTimeLog w)) /\
       exists e, lookup_time_log key w' = Some e /\ name e = key /\
                 logged_by e = user sess /\ docstatus e = 0%Z) /\
    store_ok w'.
Proof.
  intros Hok.
  unfold bulk_log_time, run, bind, db_commit, record_call, ret.
  pose proof (bulk_loop_full host sess items 0%nat [] [] w) as E.
  unfold run in E. rewrite E. cbn [app fst snd].
  set (es := batch_entries host sess (naming_series w) items).
  destruct (batch_inserted_calls es w) as (_ & Ht & _ & Hs & _).
  pose proof (batch_entries_names host sess items (naming_series w)) as Hn.
  fold es in Hn.
  eexists. eexists. split; [reflexivity|]. cbn [created].
  assert (Hok' : store_ok
            {| tabProject := tabProject (batch_inserted es w);
               tabTimeLog := tabTimeLog (batch_inserted es w);
               naming_series := naming_series (batch_inserted es w);
               db_calls := CallCommit :: db_calls (batch_inserted es w);
               response := response (batch_inserted es w) |}).
  { apply (store_ok_batch w _ es (count_valid host sess items) Hok Hn).
    - exact Ht.
    - cbn [naming_series]. rewrite Hs, <- (length_map name es), Hn.
      rewrite length_map, length_seq. reflexivity. }
  split; [rewrite Hn; apply autoname_seq_nodup|].
  split; [|exact Hok'].
  intros key Hkey. split.
  - intros Hold. rewrite Hn in Hkey.
    apply in_map_iff in Hkey. destruct Hkey as (j & Hj & Hin).
    apply in_seq in Hin.
    apply in_map_iff in Hold. destruct Hold as (t & Hname & Hin').
    destruct Hok as [_ Hi]. destruct (Hi t Hin') as (j' & Hj' & Hname').
    rewrite Hname', <- Hj in Hname. apply autoname_inj in Hname. lia.
  - apply in_map_iff in Hkey. destruct Hkey as (e & <- & He).
    exists e. split; [|split; [reflexivity|]].
    + unfold lookup_time_log. cbn [tabTimeLog].
      apply find_by_unique_name; [apply Hok'|].
      rewrite Ht. apply in_or_app. right. exact He.
    + exact (batch_entries_author host sess items _ e He).
Qed.

Lemma bulk_log_time_names_witness :
  exists res w',
    run (bulk_log_time reference_host employee (Some sample_batch))
        busy_office = (Ok res, w') /\
    NoDup (created res) /\
    (forall key, In key (created res) ->
       ~ In key (map name (tabTimeLog busy_office)) /\
       exists e, lookup_time_log key w' = Some e /\ name e = key /\
                 logged_by e = user employee /\ docstatus e = 0%Z) /\
    store_ok w'.
Proof.
  apply (bulk_log_time_names reference_host employee busy_office
           sample_batch).
  apply busy_office_ok.
Defined.

(** X16.  A batch of one item stores what [log_time] stores.  For a
    project that exists, hours in (0, 24] and a caller who may create Time
    Logs, [bulk_log_time] on the single item and [log_time] on the same
    project, hours, description and date leave the same Time Log table and
    return the same name. *)
Theorem bulk_of_one_is_log_time (host : Host) (sess : session) (w : world)
  (project_arg : string) (hours_arg : pyval)
  (description_arg : option string) (log_date_arg : option date) :
  project_arg <> "" ->
  has_permission sess "Time Log" "create" None = true ->
  lookup_project project_arg w <> None ->
  0 < flt host hours_arg <= 24 ->
  exists r1 w1 r2 w2,
    run (log_time host sess project_arg hours_arg description_arg
           log_date_arg) w = (Ok r1, w1) /\
    run (bulk_log_time host sess
           (Some [ {| item_project := Some project_arg;
                      item_hours := hours_arg;
                      item_description := description_arg;
                      item_log_date := log_date_arg |} ])) w = (Ok r2, w2) /\
    tabTimeLog w2 = tabTimeLog w1 /\
    created r2 = [lt_time_log r1] /\
    errors r2 = [].
Proof.
  intros Hp Hperm Hex Hin.
  rewrite (log_time_run host sess w project_arg hours_arg description_arg
             log_date_arg Hp Hperm Hex Hin).
  unfold bulk_log_time, run, bind, db_commit, record_call, ret.
  pose proof (bulk_loop_full host sess
                [ {| item_project := Some project_arg;
                     item_hours := hours_arg;
                     item_description := description_arg;
                     item_log_date := log_date_arg |} ] 0%nat [] [] w) as E.
  unfold run in E. rewrite E. clear E.
  assert (F : item_failure host sess 0
                {| item_project := Some project_arg;
                   item_hours := hours_arg;
                   item_description := description_arg;
                   item_log_date := log_date_arg |} = None).
  { unfold item_failure. cbn [item_project item_hours].
    destruct Hin as [Hlo Hhi].
    apply truthy_str in Hp. apply Qleb_false in Hlo. apply Qltb_false in Hhi.
    rewrite Hp, Hlo, Hperm, Hhi. reflexivity. }
  pose proof F as V. apply item_failure_valid in V.
  cbn [bulk_errors batch_entries]. rewrite F, V.
  eexists. eexists. eexists. eexists.
  split; [reflexivity|]. split; [reflexivity|].
  cbn [created errors fst snd app map lt_time_log].
  split; [reflexivity|]. split; reflexivity.
Qed.

Lemma bulk_of_one_is_log_time_witness :
  exists r1 w1 r2 w2,
    run (log_time reference_host employee "PROJ-001" (PyStr "4")
           (Some "Review") None) busy_office = (Ok r1, w1) /\
    run (bulk_log_time reference_host employee
           (Some [ {| item_project := Some "PROJ-001";
                      item_hours := PyStr "4";
                      item_description := Some "Review";
                      item_log_date := None |} ])) busy_office
      = (Ok r2, w2) /\
    tabTimeLog w2 = tabTimeLog w1 /\
    created r2 = [lt_time_log r1] /\
    errors r2 = [].
Proof.
  apply (bulk_of_one_is_log_time reference_host employee busy_office
           "PROJ-001" (PyStr "4") (Some "Review") None).
  - discriminate.
  - reflexivity.
  - vm_compute. discriminate.
  - vm_compute. split; [reflexivity|discriminate].
Defined.

(** ** generate_invoice: when it succeeds, and what it totals *)

Lemma generate_invoice_early (host : Host) (sess : session) (w : world)
  (project_arg : string) (month_arg year_arg : pyval) :
  (forall e, int host (py_or month_arg (PyInt (month (today sess))))
             = Raised e ->
     run (generate_invoice host sess project_arg month_arg year_arg) w
       = (Raised e, w)) /\
  (forall month_z e,
     int host (py_or month_arg (PyInt (month (today sess)))) = Ok month_z ->
     int host (py_or year_arg (PyInt (year (today sess)))) = Raised e ->
     run (generate_invoice host sess project_arg month_arg year_arg) w
       = (Raised e, w)) /\
  (holds_role sess invoice_roles = false ->
   exists e,
     run (generate_invoice host sess project_arg month_arg year_arg) w
       = (Raised e, w)).
Proof.
  unfold generate_invoice, only_for. fold invoice_roles. unfold_request.
  split; [|split].
  - intros e ->. reflexivity.
  - intros month_z e -> ->. reflexivity.
  - intros ->.
    destruct (int host (py_or month_arg _)); [|eexists; reflexivity].
    destruct (int host (py_or year_arg _)); eexists; reflexivity.
Qed.

Lemma hours_of_rows (host : Host) (l : list TimeLog) :
  spec_total_hours host (map row_of l) == total_hours_of l.
Proof.
  unfold spec_total_hours, total_hours_of, hours_or_zero.
  induction l as [|t l IH]; cbn [map fold_right row_of row_hours].
  - reflexivity.
  - rewrite IH. reflexivity.
Qed.

(** X17.  [generate_invoice] succeeds exactly when the caller holds a role,
    the month and the year coerce to integers, the project exists, its
    billing rate is not zero and some draft entry of the project falls in
    the period. *)
Theorem generate_invoice_succeeds_iff (host : Host) (sess : session)
  (w : world) (project_arg : string) (month_arg year_arg : pyval) :
  order_by_ok host ->
  ((exists inv w',
      run (generate_invoice host sess project_arg month_arg year_arg) w
        = (Ok inv, w')) <->
   (holds_role sess invoice_roles = true /\
    exists month_z year_z pd,
      int host (py_or month_arg (PyInt (month (today sess)))) = Ok month_z /\
      int host (py_or year_arg (PyInt (year (today sess)))) = Ok year_z /\
      lookup_project project_arg w = Some pd /\
      ~ flt host (billing_rate pd) == 0 /\
      filter (in_invoice_period project_arg month_z year_z) (tabTimeLog w)
        <> [])).
Proof.
  intros Hok.
  destruct (generate_invoice_early host sess w project_arg month_arg year_arg)
    as (Em & Ey & Er).
  split.
  - intros (inv & w' & Hrun).
    destruct (int host (py_or month_arg (PyInt (month (today sess)))))
      as [month_z|e] eqn:Hm;
      [|rewrite (Em e eq_refl) in Hrun; discriminate].
    destruct (int host (py_or year_arg (PyInt (year (today sess)))))
      as [year_z|e] eqn:Hy;
      [|rewrite (Ey month_z e eq_refl eq_refl) in Hrun; discriminate].
    destruct (holds_role sess invoice_roles) eqn:Hrole;
      [|destruct (Er eq_refl) as [e E]; rewrite E in Hrun; discriminate].
    split; [reflexivity|]. exists month_z, year_z.
    rewrite (generate_invoice_steps host sess w project_arg month_arg
               year_arg month_z year_z Hm Hy Hrole) in Hrun.
    cbv zeta in Hrun.
    destruct (lookup_project project_arg w) as [pd|]; [|discriminate].
    exists pd. split; [reflexivity|]. split; [reflexivity|].
    split; [reflexivity|].
    destruct (Qeq_bool (flt host (billing_rate pd)) 0) eqn:E;
      [discriminate|].
    split.
    + intros Hz. apply Qeq_bool_iff in Hz. congruence.
    + intros Hnil.
      rewrite (invoice_rows_nil host w project_arg month_z year_z Hok Hnil)
        in Hrun.
      discriminate.
  - intros (Hrole & month_z & year_z & pd & Hm & Hy & Hex & Hrate & Hrows).
    rewrite (generate_invoice_steps host sess w project_arg month_arg
               year_arg month_z year_z Hm Hy Hrole).
    cbv zeta. rewrite Hex.
    destruct (Qeq_bool (flt host (billing_rate pd)) 0) eqn:E;
      [apply Qeq_bool_iff in E; contradiction|].
    destruct (invoice_rows host w project_arg month_z year_z) eqn:R.
    + exfalso. apply Hrows. unfold invoice_rows in R.
      apply map_eq_nil in R.
      destruct (Hok TimeLog (fun a b => date_leb (log_date a) (log_date b))
                  (filter (in_invoice_period project_arg month_z year_z)
                          (tabTimeLog w))) as [Hperm _].
      rewrite R in Hperm. apply Permutation_nil in Hperm. exact Hperm.
    + eexists. eexists. reflexivity.
Qed.

Lemma generate_invoice_succeeds_iff_witness :
  (exists inv w',
     run (generate_invoice reference_host manager "PROJ-001"
            (PyStr "1") (PyStr "2024")) busy_office = (Ok inv, w')) <->
  (holds_role manager invoice_roles = true /\
   exists month_z year_z pd,
     int reference_host (py_or (PyStr "1") (PyInt (month (today manager))))
       = Ok month_z /\
     int reference_host (py_or (PyStr "2024") (PyInt (year (today manager))))
       = Ok year_z /\
     lookup_project "PROJ-001" busy_office = Some pd /\
     ~ flt reference_host (billing_rate pd) == 0 /\
     filter (in_invoice_period "PROJ-001" month_z year_z)
            (tabTimeLog busy_office) <> []).
Proof.
  apply (generate_invoice_succeeds_iff reference_host manager busy_office
           "PROJ-001" (PyStr "1") (PyStr "2024") reference_host_ok).
Defined.



(** ** download_timesheet_csv: refusals, and the empty export *)

(** X19.  How [download_timesheet_csv] refuses, and what it leaves alone.
    A caller without the role gets a [PermissionError] and the store is
    untouched; a caller with the role who may not read Time Logs gets a
    [PermissionError] too; in both cases no response is set.  A call that
    succeeds sets the response to a file named after the project, the year
    and the month, and changes no table. *)
Theorem download_timesheet_csv_outcomes (host : Host) (sess : session)
  (w : world) (project_arg : string) (month_z year_z : Z) :
  (holds_role sess invoice_roles = false ->
   run (download_timesheet_csv host sess project_arg month_z year_z) w
     = (Raised not_permitted, w)) /\
  (holds_role sess invoice_roles = true ->
   has_permission sess "Time Log" "read" None = false ->
   run (download_timesheet_csv host sess project_arg month_z year_z) w
     = (Raised {| exc_kind := PermissionError;
                  exc_msg := "Insufficient Permission for Time Log" |}, w)) /\
  (holds_role sess invoice_roles = true ->
   has_permission sess "Time Log" "read" None = true ->
   exists w',
     run (download_timesheet_csv host sess project_arg month_z year_z) w
       = (Ok tt, w') /\
     option_map filename (response w')
       = Some ("timesheet_" ++ project_arg ++ "_" ++ str_of_Z year_z
               ++ "_" ++ str_of_Z month_z ++ ".csv") /\
     tabTimeLog w' = tabTimeLog w /\ tabProject w' = tabProject w /\
     naming_series w' = naming_series w /\
     filter is_write (db_calls w') = filter is_write (db_calls w)).
Proof.
  unfold download_timesheet_csv, only_for, db_get_list.
  fold invoice_roles. split; [|split].
  - intros ->. reflexivity.
  - intros -> ->. reflexivity.
  - intros -> ->. eexists. split; [reflexivity|].
    repeat split; reflexivity.
Qed.

Lemma download_timesheet_csv_outcomes_witness :
  run (download_timesheet_csv reference_host employee "PROJ-001" 1 2024)
      busy_office = (Raised not_permitted, busy_office) /\
  exists w',
    run (download_timesheet_csv reference_host manager "PROJ-001" 1 2024)
        busy_office = (Ok tt, w') /\
    option_map filename (response w')
      = Some ("timesheet_" ++ "PROJ-001" ++ "_" ++ str_of_Z 2024
              ++ "_" ++ str_of_Z 1 ++ ".csv") /\
    tabTimeLog w' = tabTimeLog busy_office /\
    tabProject w' = tabProject busy_office /\
    naming_series w' = naming_series busy_office /\
    filter is_write (db_calls w') = filter is_write (db_calls busy_office).
Proof.
  split.
  - apply (proj1 (download_timesheet_csv_outcomes reference_host employee
                    busy_office "PROJ-001" 1 2024)).
    reflexivity.
  - apply (proj2 (proj2 (download_timesheet_csv_outcomes reference_host
                           manager busy_office "PROJ-001" 1 2024)));
      reflexivity.
Defined.

(** X20.  An export with nothing to export does not fail: when no entry of
    the project is dated from the 1st to the 28th of the month, the file is
    the header line alone, where [generate_invoice] raises for an empty
    period. *)
Theorem download_timesheet_csv_empty (host : Host) (sess : session)
  (w : world) (project_arg : string) (month_z year_z : Z) :
  order_by_ok host ->
  holds_role sess invoice_roles = true ->
  has_permission sess "Time Log" "read" None = true ->
  filter (in_timesheet project_arg month_z year_z) (tabTimeLog w) = [] ->
  exists w',
    run (download_timesheet_csv host sess project_arg month_z year_z) w
      = (Ok tt, w') /\
    option_map filecontent (response w')
      = Some "Date,Employee,Hours,Description".
Proof.
  intros Hok Hrole Hread Hnil.
  unfold download_timesheet_csv, only_for, db_get_list.
  fold invoice_roles. rewrite Hrole, Hread.
  eexists. split; [reflexivity|].
  cbn -[String.concat]. rewrite Hnil.
  destruct (Hok TimeLog (fun _ _ => true) []) as [Hperm _].
  apply Permutation_sym, Permutation_nil in Hperm. rewrite Hperm.
  reflexivity.
Qed.

Lemma download_timesheet_csv_empty_witness :
  exists w',
    run (download_timesheet_csv reference_host manager "PROJ-001" 2 2024)
        busy_office = (Ok tt, w') /\
    option_map filecontent (response w')
      = Some "Date,Employee,Hours,Description".
Proof.
  apply (download_timesheet_csv_empty reference_host manager busy_office
           "PROJ-001" 2 2024 reference_host_ok); reflexivity.
Defined.

(** ** The annual report: request, queue, mail *)

(** X21.  [export_annual_report] asks for no role.  For any caller, with
    or without a role, and a year that coerces to an integer it returns at
    once, having queued exactly one job, on the long queue with a timeout
    of 1800 seconds, for that year and in the name of the caller; a year
    that does not coerce raises the error of the coercion and queues
    nothing.  The store and the mails are untouched either way. *)
Theorem export_annual_report_enqueues (host : Host) (sess : session)
  (s : site) (year_arg : pyval) :
  (forall year_z,
     int host year_arg = Ok year_z ->
     exists ack,
       export_annual_report host sess year_arg s
         = (Ok ack,
            {| site_store := site_store s;
               enqueued := enqueued s ++
                 [ {| job_method := annual_report_job_path;
                      job_queue := "long";
                      job_timeout := 1800;
                      job_now := false;
                      job_year := year_z;
                      job_requested_by := user sess |} ];
               outbox := outbox s |}) /\
       ack_message ack
         = "Annual report for " ++ str_of_Z year_z
           ++ " is being generated.") /\
  (forall e,
     int host year_arg = Raised e ->
     export_annual_report host sess year_arg s = (Raised e, s)).
Proof.
  unfold export_annual_report. split.
  - intros year_z ->. eexists. split; reflexivity.
  - intros e ->. reflexivity.
Qed.

Lemma export_annual_report_enqueues_witness :
  holds_role guest_user invoice_roles = false /\
  (exists ack,
     export_annual_report reference_host guest_user (PyStr "2024")
       (empty_site busy_office)
       = (Ok ack,
          {| site_store := busy_office;
             enqueued :=
               [ {| job_method := annual_report_job_path;
                    job_queue := "long";
                    job_timeout := 1800;
                    job_now := false;
                    job_year := 2024;
                    job_requested_by := "guest@example.com" |} ];
             outbox := [] |}) /\
     ack_message ack
       = "Annual report for " ++ str_of_Z 2024 ++ " is being generated.") /\
  export_annual_report reference_host manager (PyStr "next year")
    (empty_site busy_office)
  = (Raised {| exc_kind := ValueError;
               exc_msg := "invalid literal for int(): next year" |},
     empty_site busy_office).
Proof.
  split; [reflexivity|]. split.
  - apply (proj1 (export_annual_report_enqueues reference_host guest_user
                    (empty_site busy_office) (PyStr "2024")) 2024%Z).
    reflexivity.
  - apply (proj2 (export_annual_report_enqueues reference_host manager
                    (empty_site busy_office) (PyStr "next year"))).
    reflexivity.
Defined.

(** X22.  From the request to the mail.  On a site with an empty queue,
    once a worker has run the job that [export_annual_report] queued, the
    queue is empty again and exactly one mail has been added, to the caller
    alone, with the year in its subject; the store is untouched. *)
Theorem annual_report_reaches_requester (host : Host) (sess : session)
  (s : site) (year_arg : pyval) (year_z : Z) :
  int host year_arg = Ok year_z ->
  enqueued s = [] ->
  exists ack,
    fst (export_annual_report host sess year_arg s) = Ok ack /\
    work_one (snd (export_annual_report host sess year_arg s))
    = {| site_store := site_store s;
         enqueued := [];
         outbox := outbox s ++
           [ {| recipients := [user sess];
                subject := "Annual Report " ++ str_of_Z year_z ++ " Ready";
                message := "Your annual time tracking report for "
                           ++ str_of_Z year_z ++ " has been generated." |} ]
      |}.
Proof.
  intros Hy Hq. unfold export_annual_report. rewrite Hy.
  eexists. split; [reflexivity|].
  cbn [snd]. unfold work_one, enqueue. cbn [enqueued]. rewrite Hq.
  cbn [app job_method]. rewrite String.eqb_refl.
  reflexivity.
Qed.

Lemma annual_report_reaches_requester_witness :
  exists ack,
    fst (export_annual_report reference_host employee (PyInt 2023)
           (empty_site busy_office)) = Ok ack /\
    work_one (snd (export_annual_report reference_host employee (PyInt 2023)
                     (empty_site busy_office)))
    = {| site_store := busy_office;
         enqueued := [];
         outbox :=
           [ {| recipients := ["ali@example.com"];
                subject := "Annual Report " ++ str_of_Z 2023 ++ " Ready";
                message := "Your annual time tracking report for "
                           ++ str_of_Z 2023 ++ " has been generated." |} ]
      |}.
Proof.
  apply (annual_report_reaches_requester reference_host employee
           (empty_site busy_office) (PyInt 2023) 2023); reflexivity.
Defined.

(** ** Logging, then invoicing *)

Lemma generate_invoice_hours (host : Host) (sess : session) (w : world)
  (project_arg : string) (month_arg year_arg : pyval) (month_z year_z : Z)
  (pd : Project) :
  order_by_ok host ->
  int host (py_or month_arg (PyInt (month (today sess)))) = Ok month_z ->
  int host (py_or year_arg (PyInt (year (today sess)))) = Ok year_z ->
  holds_role sess invoice_roles = true ->
  lookup_project project_arg w = Some pd ->
  ~ flt host (billing_rate pd) == 0 ->
  filter (in_invoice_period project_arg month_z year_z) (tabTimeLog w)
    <> [] ->
  exists inv w',
    run (generate_invoice host sess project_arg month_arg year_arg) w
      = (Ok inv, w') /\
    inv_total_hours inv
      == total_hours_of
           (filter (in_invoice_period project_arg month_z year_z)
                   (tabTimeLog w)) /\
    inv_total_amount inv
      == total_hours_of
           (filter (in_invoice_period project_arg month_z year_z)
                   (tabTimeLog w)) * flt host (billing_rate pd).
Proof.
  intros Hok Hm Hy Hrole Hex Hrate Hrows.
  destruct (Hok TimeLog (fun a b => date_leb (log_date a) (log_date b))
              (filter (in_invoice_period project_arg month_z year_z)
                      (tabTimeLog w))) as [Hperm _].
  assert (Htotal : sum_hours host
                     (invoice_rows host w project_arg month_z year_z)
                   == total_hours_of
                        (filter (in_invoice_period project_arg month_z year_z)
                                (tabTimeLog w))).
  { rewrite sum_hours_spec. unfold invoice_rows.
    rewrite (spec_total_hours_perm host _ _ (Permutation_map row_of Hperm)).
    apply hours_of_rows. }
  rewrite (generate_invoice_steps host sess w project_arg month_arg
             year_arg month_z year_z Hm Hy Hrole).
  cbv zeta. rewrite Hex.
  destruct (Qeq_bool (flt host (billing_rate pd)) 0) eqn:E;
    [apply Qeq_bool_iff in E; contradiction|].
  destruct (invoice_rows host w project_arg month_z year_z) eqn:R.
  - exfalso. apply Hrows. unfold invoice_rows in R. apply map_eq_nil in R.
    rewrite R in Hperm. apply Permutation_nil in Hperm. exact Hperm.
  - eexists. eexists. split; [reflexivity|].
    cbn [inv_total_hours inv_total_amount].
    split; [exact Htotal|rewrite Htotal; reflexivity].
Qed.

(** X23.  An entry that [log_time] creates is on the next invoice of its
    month.  After a caller has logged hours on a project with a billing
    rate, the invoice a manager asks for, for that project and the month
    and year of the entry, succeeds and totals the hours of the drafts that
    were there before plus the hours just logged. *)
Theorem log_time_then_invoice (host : Host) (sess boss : session) (w : world)
  (project_arg : string) (hours_arg : pyval)
  (description_arg : option string) (log_date_arg : option date)
  (month_arg year_arg : pyval) (pd : Project) :
  order_by_ok host ->
  project_arg <> "" ->
  has_permission sess "Time Log" "create" None = true ->
  lookup_project project_arg w = Some pd ->
  ~ flt host (billing_rate pd) == 0 ->
  0 < flt host hours_arg <= 24 ->
  let entry := logged_entry host sess w project_arg hours_arg
                 description_arg log_date_arg in
  int host (py_or month_arg (PyInt (month (today boss))))
    = Ok (month (log_date entry)) ->
  int host (py_or year_arg (PyInt (year (today boss))))
    = Ok (year (log_date entry)) ->
  holds_role boss invoice_roles = true ->
  exists r w1 inv w2,
    run (log_time host sess project_arg hours_arg description_arg
           log_date_arg) w = (Ok r, w1) /\
    run (generate_invoice host boss project_arg month_arg year_arg) w1
      = (Ok inv, w2) /\
    inv_total_hours inv
      == total_hours_of
           (filter (in_invoice_period project_arg (month (log_date entry))
                      (year (log_date entry))) (tabTimeLog w))
         + flt host hours_arg.
Proof.
  intros Hok Hp Hperm Hex Hrate Hin entry Hm Hy Hrole.
  assert (Hex0 : lookup_project project_arg w <> None) by congruence.
  rewrite (log_time_run host sess w project_arg hours_arg description_arg
             log_date_arg Hp Hperm Hex0 Hin).
  fold entry.
  set (w1 := with_call CallCommit
               (inserted entry
                  (with_call (CallExists "Project" project_arg) w))).
  assert (Hex1 : lookup_project project_arg w1 = Some pd) by exact Hex.
  assert (Hkeep : in_invoice_period project_arg (month (log_date entry))
                    (year (log_date entry)) entry = true).
  { apply in_invoice_period_iff. repeat split; reflexivity. }
  assert (Htab : filter (in_invoice_period project_arg
                           (month (log_date entry)) (year (log_date entry)))
                        (tabTimeLog w1)
                 = (filter (in_invoice_period project_arg
                              (month (log_date entry))
                              (year (log_date entry))) (tabTimeLog w)
                    ++ [entry])%list).
  { change (tabTimeLog w1) with (tabTimeLog w ++ [entry])%list.
    rewrite filter_app. cbn [filter]. rewrite Hkeep. reflexivity. }
  destruct (generate_invoice_hours host boss w1 project_arg month_arg
              year_arg (month (log_date entry)) (year (log_date entry)) pd
              Hok Hm Hy Hrole Hex1 Hrate) as (inv & w2 & Hrun & Hh & _).
  { rewrite Htab. intros Hnil. apply app_eq_nil in Hnil.
    destruct Hnil as [_ Hnil]. discriminate. }
  eexists. exists w1, inv, w2. split; [reflexivity|].
  split; [exact Hrun|].
  rewrite Hh, Htab, total_hours_of_app.
  cbn [total_hours_of fold_right]. change (hours entry) with (flt host hours_arg).
  ring.
Qed.

Lemma log_time_then_invoice_witness :
  exists r w1 inv w2,
    run (log_time reference_host employee "PROJ-001" (PyStr "1.5")
           None None) busy_office = (Ok r, w1) /\
    run (generate_invoice reference_host manager "PROJ-001" PyNone PyNone) w1
      = (Ok inv, w2) /\
    inv_total_hours inv
      == total_hours_of
           (filter (in_invoice_period "PROJ-001" 1 2024)
                   (tabTimeLog busy_office))
         + flt reference_host (PyStr "1.5").
Proof.
  apply (log_time_then_invoice reference_host employee manager busy_office
           "PROJ-001" (PyStr "1.5") None None PyNone PyNone
           {| project_name := "Website"; billing_rate := PyFloat 10;
              customer := "ACME" |} reference_host_ok).
  - discriminate.
  - reflexivity.
  - reflexivity.
  - vm_compute. discriminate.
  - vm_compute. split; [reflexivity|discriminate].
  - reflexivity.
  - reflexivity.
  - reflexivity.
Defined.

(** ** The hours of the entries that are created *)




(** ** An omitted month or year *)

Lemma py_or_default (v d : pyval) : truthy v = false -> py_or v d = d.
Proof. unfold py_or. intros ->. reflexivity. Qed.

(** X25.  A month or a year that is omitted, empty or zero stands for the
    current one: with such a value [generate_invoice] and
    [get_all_employees_hours] do what they do for the month and the year of
    today, given as integers. *)
Theorem omitted_period_is_today (host : Host) (sess : session) (w : world)
  (project_arg : string) (month_arg year_arg : pyval) :
  truthy month_arg = false ->
  truthy year_arg = false ->
  run (generate_invoice host sess project_arg month_arg year_arg) w
    = run (generate_invoice host sess project_arg
             (PyInt (month (today sess))) (PyInt (year (today sess)))) w /\
  run (get_all_employees_hours host sess month_arg year_arg) w
    = run (get_all_employees_hours host sess
             (PyInt (month (today sess))) (PyInt (year (today sess)))) w.
Proof.
  intros Hm Hy.
  assert (Tm : py_or (PyInt (month (today sess))) (PyInt (month (today sess)))
               = PyInt (month (today sess))).
  { unfold py_or. destruct (truthy (PyInt (month (today sess))));
      reflexivity. }
  assert (Ty : py_or (PyInt (year (today sess))) (PyInt (year (today sess)))
               = PyInt (year (today sess))).
  { unfold py_or. destruct (truthy (PyInt (year (today sess))));
      reflexivity. }
  unfold generate_invoice, get_all_employees_hours, run.
  rewrite (py_or_default month_arg _ Hm), (py_or_default year_arg _ Hy).
  rewrite Tm, Ty. split; reflexivity.
Qed.

Lemma omitted_period_is_today_witness :
  run (generate_invoice reference_host manager "PROJ-001"
         (PyInt 0) (PyStr "")) busy_office
    = run (generate_invoice reference_host manager "PROJ-001"
             (PyInt 1) (PyInt 2024)) busy_office /\
  run (get_all_employees_hours reference_host manager (PyInt 0) (PyStr ""))
      busy_office
    = run (get_all_employees_hours reference_host manager
             (PyInt 1) (PyInt 2024)) busy_office.
Proof.
  apply (omitted_period_is_today reference_host manager busy_office
           "PROJ-001" (PyInt 0) (PyStr "")); reflexivity.
Defined.
